(** * Payment initiation and webhook reconciliation of the appointment backend

    The repository holds two iterations of one Express server:
    - [src/deepseek_javascript_20250903_d1d6a6.js], embedded in [Module Main];
    - [src/unnamed/part_000], embedded in [Module Alt].

    Both talk to two external collaborators, the Supabase store (tables
    [payments] and [appointments]) and the Paystack gateway.  The handlers
    are embedded as functions of a small monad that threads the store and
    an effect trace and that can throw; what the collaborators answer to
    each call of one request is read from an [environment]. *)

From Stdlib Require Import String List ZArith Bool Lia DecimalString.
Import ListNotations.
Local Open Scope string_scope.
Local Open Scope list_scope.

(** ** JavaScript values *)

(** The values a parsed JSON body can hold, plus [undefined].  Numbers are
    restricted to integers. *)
#[local] Set Warnings "-register-all".
Inductive value : Type :=
| VUndefined
| VNull
| VBool (b : bool)
| VNum (n : Z)
| VStr (s : string)
| VArr (items : list value)
| VObj (fields : list (string * value)).

(** [!!v] *)
Definition truthy (v : value) : bool :=
  match v with
  | VUndefined | VNull => false
  | VBool b => b
  | VNum n => negb (n =? 0)%Z
  | VStr s => negb (s =? EmptyString)
  | VArr _ | VObj _ => true
  end.

(** [v === 'literal'] *)
Definition is_string (v : value) (literal : string) : bool :=
  match v with
  | VStr s => s =? literal
  | _ => false
  end.

(** [a || b] *)
Definition js_or (a b : value) : value := if truthy a then a else b.

(** The value bound to a parameter declared [p = null]. *)
Definition default_null (v : value) : value :=
  match v with
  | VUndefined => VNull
  | _ => v
  end.

Fixpoint lookup (key : string) (fields : list (string * value)) : value :=
  match fields with
  | [] => VUndefined
  | (k, v) :: rest => if k =? key then v else lookup key rest
  end.

(** [String(v)], the text [v] becomes in a template literal: a number in
    decimal, an array as its elements joined by commas, with nothing for a
    [null] or [undefined] element. *)
Fixpoint js_String (v : value) : string :=
  match v with
  | VUndefined => "undefined"
  | VNull => "null"
  | VBool b => if b then "true" else "false"
  | VNum n => NilZero.string_of_int (Z.to_int n)
  | VStr s => s
  | VArr items =>
      (fix join (l : list value) : string :=
         match l with
         | [] => EmptyString
         | x :: rest =>
             let text := match x with
                         | VUndefined | VNull => EmptyString
                         | _ => js_String x
                         end in
             match rest with
             | [] => text
             | _ :: _ => (text ++ "," ++ join rest)%string
             end
         end) items
  | VObj _ => "[object Object]"
  end.

(** The errors the two servers can see. [DatabaseError] and [PaymentError]
    are the subclasses of [AppError] of the first file; [Rejected] is the
    rejection of a promise of a client library. *)
Inductive js_error : Type :=
| DatabaseError (message : string)
| PaymentError (message : string)
| TypeError (message : string)
| Rejected (message : string).

(** [error instanceof AppError] *)
Definition instanceof_AppError (e : js_error) : bool :=
  match e with
  | DatabaseError _ | PaymentError _ => true
  | TypeError _ | Rejected _ => false
  end.

(** [error.statusCode], set by the constructors of the [AppError] classes. *)
Definition statusCode (e : js_error) : option Z :=
  match e with
  | DatabaseError _ => Some 500%Z
  | PaymentError _ => Some 400%Z
  | TypeError _ | Rejected _ => None
  end.

Definition message_of (e : js_error) : string :=
  match e with
  | DatabaseError m | PaymentError m | TypeError m | Rejected m => m
  end.

(** ** The store, the gateway and the effect trace *)

(** A row of [payments]; the fields are the columns the servers insert,
    [pay_id] is assigned by the store. *)
Record payment : Type := mkPayment {
  pay_id : nat;
  pay_appointment_id : value;
  pay_amount_ngn : value;
  pay_provider : string;
  pay_status : string;
  pay_ref : string
}.

(** A row of [appointments], of which the servers touch [status]. *)
Record appointment : Type := mkAppointment {
  appt_id : string;
  appt_status : string
}.

(** What the store does with one call: it applies it, or it resolves with
    an [error] object and applies nothing, or the promise rejects. *)
Inductive outcome : Type :=
| Succeeds
| ReturnsError (message : string)
| Rejects (message : string).

(** What [fetch] followed by [initResp.json()] yields. *)
Inductive gateway_reply : Type :=
| Replies (json : value)
| FetchRejects (message : string).

(** The answers of the collaborators during one request.  Each handler
    makes at most one call of each kind. *)
Record environment : Type := mkEnvironment {
  uuid : string;
  on_insert_payment : outcome;
  on_gateway : gateway_reply;
  on_update_payments : outcome;
  on_update_appointments : outcome
}.

Inductive effect : Type :=
| ConsoleLog (text : string)
| ConsoleWarn (text : string)
| ConsoleError (text : string)
| PaymentsInsert (appointment_id amount_ngn : value) (provider status ref : string)
    (o : outcome)
| PaymentsUpdate (status : string) (reference : value) (o : outcome)
| AppointmentsUpdate (status : string) (id : value) (o : outcome)
| GatewayInitialize (amount email : value) (reference : string)
    (metadata_appointment_id : value) (r : gateway_reply).

Definition is_store_call (e : effect) : bool :=
  match e with
  | PaymentsInsert _ _ _ _ _ _ | PaymentsUpdate _ _ _ | AppointmentsUpdate _ _ _ => true
  | _ => false
  end.

Definition is_gateway_call (e : effect) : bool :=
  match e with
  | GatewayInitialize _ _ _ _ _ => true
  | _ => false
  end.

Definition is_appointments_write (e : effect) : bool :=
  match e with
  | AppointmentsUpdate _ _ _ => true
  | _ => false
  end.

Record world : Type := mkWorld {
  payments : list payment;
  appointments : list appointment;
  trace : list effect
}.

(** ** The monad of the handlers *)

Inductive result (A : Type) : Type :=
| Ok (a : A)
| Throw (e : js_error).
Arguments Ok {A} a.
Arguments Throw {A} e.

Definition M (A : Type) : Type := environment -> world -> result A * world.

Definition ret {A} (a : A) : M A := fun _ w => (Ok a, w).

Definition throw {A} (e : js_error) : M A := fun _ w => (Throw e, w).

Definition bind {A B} (m : M A) (k : A -> M B) : M B :=
  fun env w =>
    match m env w with
    | (Ok a, w') => k a env w'
    | (Throw e, w') => (Throw e, w')
    end.

(** [try { m } catch (e) { handler e }]; what [m] did before it threw
    stays done. *)
Definition try_catch {A} (m : M A) (handler : js_error -> M A) : M A :=
  fun env w =>
    match m env w with
    | (Ok a, w') => (Ok a, w')
    | (Throw e, w') => handler e env w'
    end.

Declare Scope js_scope.
Delimit Scope js_scope with js.
Notation "x <- m ;; k" := (bind m (fun x => k))
  (at level 61, m at next level, right associativity) : js_scope.
Notation "m ;; k" := (bind m (fun _ => k))
  (at level 61, right associativity) : js_scope.
Local Open Scope js_scope.

Definition ask : M environment := fun env w => (Ok env, w).

Definition emit (e : effect) : M unit :=
  fun _ w =>
    (Ok tt, {| payments := payments w; appointments := appointments w;
               trace := trace w ++ [e] |}).

Definition console_log (text : string) : M unit := emit (ConsoleLog text).
Definition console_warn (text : string) : M unit := emit (ConsoleWarn text).
Definition console_error (text : string) : M unit := emit (ConsoleError text).

(** [v.key]: throws on [undefined] and [null]; the keys the servers read
    are own properties of objects only. *)
Definition get_prop (v : value) (key : string) : M value :=
  match v with
  | VUndefined => throw (TypeError "Cannot read properties of undefined")
  | VNull => throw (TypeError "Cannot read properties of null")
  | VObj fields => ret (lookup key fields)
  | _ => ret VUndefined
  end.

(** [v?.key] *)
Definition get_opt (v : value) (key : string) : value :=
  match v with
  | VObj fields => lookup key fields
  | _ => VUndefined
  end.

(** ** The Supabase client *)

(** The [{ data, error }] object a query resolves with. *)
Record store_result : Type := mkStoreResult {
  data : option (list payment);
  error : option string
}.

(** [.eq('ref', reference)] and [.eq('id', id)]: the client sends the
    filter as [column=eq.${value}], so a row matches when its column holds the
    text of the value. *)
Definition eq_filter (column : string) (v : value) : bool := column =? js_String v.
Arguments eq_filter : simpl never.

Definition set_status (st : string) (p : payment) : payment :=
  {| pay_id := pay_id p; pay_appointment_id := pay_appointment_id p;
     pay_amount_ngn := pay_amount_ngn p; pay_provider := pay_provider p;
     pay_status := st; pay_ref := pay_ref p |}.

Definition update_payment (st : string) (reference : value) (p : payment) : payment :=
  if eq_filter (pay_ref p) reference then set_status st p else p.

Definition update_appointment (st : string) (id : value) (a : appointment) : appointment :=
  if eq_filter (appt_id a) id then {| appt_id := appt_id a; appt_status := st |} else a.

(** [supabase.from('payments').insert([{ ..., status, ref }])], followed by
    [.select()] when [select] is set: the inserted rows come back as [data]
    only then. *)
Definition payments_insert (select : bool) (appointment_id amount_ngn : value)
    (provider st ref : string) : M store_result :=
  fun env w =>
    let o := on_insert_payment env in
    let t := trace w ++ [PaymentsInsert appointment_id amount_ngn provider st ref o] in
    match o with
    | Succeeds =>
        let row := {| pay_id := length (payments w);
                      pay_appointment_id := appointment_id;
                      pay_amount_ngn := amount_ngn; pay_provider := provider;
                      pay_status := st; pay_ref := ref |} in
        (Ok {| data := if select then Some [row] else None; error := None |},
         {| payments := payments w ++ [row]; appointments := appointments w;
            trace := t |})
    | ReturnsError msg =>
        (Ok {| data := None; error := Some msg |},
         {| payments := payments w; appointments := appointments w; trace := t |})
    | Rejects msg =>
        (Throw (Rejected msg),
         {| payments := payments w; appointments := appointments w; trace := t |})
    end.

(** [supabase.from('payments').update({ status }).eq('ref', reference)] *)
Definition payments_update (st : string) (reference : value) : M store_result :=
  fun env w =>
    let o := on_update_payments env in
    let t := trace w ++ [PaymentsUpdate st reference o] in
    match o with
    | Succeeds =>
        (Ok {| data := None; error := None |},
         {| payments := map (update_payment st reference) (payments w);
            appointments := appointments w; trace := t |})
    | ReturnsError msg =>
        (Ok {| data := None; error := Some msg |},
         {| payments := payments w; appointments := appointments w; trace := t |})
    | Rejects msg =>
        (Throw (Rejected msg),
         {| payments := payments w; appointments := appointments w; trace := t |})
    end.

(** [supabase.from('appointments').update({ status }).eq('id', id)] *)
Definition appointments_update (st : string) (id : value) : M store_result :=
  fun env w =>
    let o := on_update_appointments env in
    let t := trace w ++ [AppointmentsUpdate st id o] in
    match o with
    | Succeeds =>
        (Ok {| data := None; error := None |},
         {| payments := payments w;
            appointments := map (update_appointment st id) (appointments w);
            trace := t |})
    | ReturnsError msg =>
        (Ok {| data := None; error := Some msg |},
         {| payments := payments w; appointments := appointments w; trace := t |})
    | Rejects msg =>
        (Throw (Rejected msg),
         {| payments := payments w; appointments := appointments w; trace := t |})
    end.

(** [fetch('https://api.paystack.co/transaction/initialize', ...)] and
    [initResp.json()]. *)
Definition gateway_initialize (amount email : value) (reference : string)
    (metadata_appointment_id : value) : M value :=
  fun env w =>
    let r := on_gateway env in
    let w' := {| payments := payments w; appointments := appointments w;
                 trace := trace w ++
                   [GatewayInitialize amount email reference metadata_appointment_id r] |} in
    match r with
    | Replies json => (Ok json, w')
    | FetchRejects msg => (Throw (Rejected msg), w')
    end.

(** ** HTTP requests and responses *)

Record request : Type := mkRequest {
  body : value;
  headers : list (string * string)
}.

Fixpoint header (name : string) (hs : list (string * string)) : option string :=
  match hs with
  | [] => None
  | (k, v) :: rest => if k =? name then Some v else header name rest
  end.

Inductive payload : Type :=
| Json (v : value)
| StatusText (s : string)
| ErrorReport (e : js_error).

Record response : Type := mkResponse {
  status_code : Z;
  sent : payload
}.

(** [next(error)]: the error handler that answers writes the error on
    [console.error] and answers with [error.statusCode || 500]. *)
Definition next (e : js_error) : M response :=
  console_error (message_of e) ;;
  ret {| status_code := match statusCode e with Some c => c | None => 500%Z end;
         sent := ErrorReport e |}.

(** ** src/deepseek_javascript_20250903_d1d6a6.js *)

Module Main.

Section Server.

(** [crypto.createHmac('sha512', key).update(text).digest('hex')] *)
Variable hmac_sha512_hex : string -> string -> string.
(** [JSON.stringify] on a value other than [undefined] *)
Variable JSON_stringify : value -> string.
(** [v * 100] *)
Variable times_100 : value -> value.
(** the text [v] contributes to ['...' + v] *)
Variable js_text : value -> string.
(** [process.env.PAYSTACK_WEBHOOK_SECRET] *)
Variable PAYSTACK_WEBHOOK_SECRET : option string.

(** [!PAYSTACK_WEBHOOK_SECRET] is false exactly for a non-empty string. *)
Definition configured_secret : option string :=
  match PAYSTACK_WEBHOOK_SECRET with
  | Some s => if s =? EmptyString then None else Some s
  | None => None
  end.

(** [hash === req.headers['x-paystack-signature']] *)
Definition same_signature (hash : string) (h : option string) : bool :=
  match h with
  | Some s => hash =? s
  | None => false
  end.

Definition verifyPaystackSignature (req : request) : M bool :=
  match configured_secret with
  | None =>
      console_warn
        "Paystack webhook secret not configured, skipping signature verification" ;;
      ret true
  | Some secret =>
      match body req with
      | VUndefined =>
          throw (TypeError "The data argument must be of type string")
      | b =>
          let hash := hmac_sha512_hex secret (JSON_stringify b) in
          ret (same_signature hash (header "x-paystack-signature" (headers req)))
      end
  end.

(** [data[0]] *)
Definition first_row (d : option (list payment)) : M (option payment) :=
  match d with
  | None => throw (TypeError "Cannot read properties of null")
  | Some rows => ret (hd_error rows)
  end.

Definition createPaymentRecord (appointment_id amount_ngn : value)
    (provider ref : string) : M (option payment) :=
  try_catch
    (r <- payments_insert true appointment_id amount_ngn provider "initiated" ref ;;
     match error r with
     | Some msg => throw (DatabaseError ("Failed to create payment record: " ++ msg)%string)
     | None => first_row (data r)
     end)
    (fun e =>
       if instanceof_AppError e then throw e
       else throw (DatabaseError "Unexpected database error occurred")).

Definition updatePaymentStatus (reference : value) (status : string)
    (appointment_id : value) : M bool :=
  let appointment_id := default_null appointment_id in
  try_catch
    (r <- payments_update status reference ;;
     match error r with
     | Some msg => throw (DatabaseError ("Failed to update payment status: " ++ msg)%string)
     | None =>
         (if (status =? "paid") && truthy appointment_id then
            r' <- appointments_update "confirmed" appointment_id ;;
            match error r' with
            | Some _ => console_error "Failed to update appointment status:"
            | None => ret tt
            end
          else ret tt) ;;
         ret true
     end)
    (fun e =>
       if instanceof_AppError e then throw e
       else throw (DatabaseError "Unexpected error updating payment status")).

(** [app.post('/paystack/init', ...)] *)
Definition paystack_init (req : request) : M response :=
  try_catch
    (appointment_id <- get_prop (body req) "appointment_id" ;;
     amount_ngn <- get_prop (body req) "amount_ngn" ;;
     patient_email <- get_prop (body req) "patient_email" ;;
     if negb (truthy appointment_id) || negb (truthy amount_ngn) then
       throw (PaymentError "appointment_id and amount_ngn are required")
     else
       env <- ask ;;
       let ref := ("ps_ref_" ++ uuid env)%string in
       createPaymentRecord appointment_id amount_ngn "paystack" ref ;;
       json <- gateway_initialize (times_100 amount_ngn)
                 (js_or patient_email (VStr "customer@example.com")) ref
                 appointment_id ;;
       ok <- get_prop json "status" ;;
       if negb (truthy ok) then
         updatePaymentStatus (VStr ref) "failed" VUndefined ;;
         message <- get_prop json "message" ;;
         throw (PaymentError ("Paystack initialization failed: " ++
                              js_text (js_or message (VStr "Unknown error")))%string)
       else
         d <- get_prop json "data" ;;
         authorization_url <- get_prop d "authorization_url" ;;
         access_code <- get_prop d "access_code" ;;
         ret {| status_code := 200;
                sent := Json (VObj [("authorization_url", authorization_url);
                                    ("access_code", access_code);
                                    ("reference", VStr ref)]) |})
    next.

(** [app.post('/paystack/webhook', ...)] *)
Definition paystack_webhook (req : request) : M response :=
  try_catch
    (verified <- verifyPaystackSignature req ;;
     if negb verified then
       console_error "Invalid webhook signature" ;;
       ret {| status_code := 401;
              sent := Json (VObj [("error", VStr "Invalid signature")]) |}
     else
       let event := body req in
       type <- get_prop event "event" ;;
       console_log "Paystack webhook received" ;;
       (if is_string type "charge.success" then
          d <- get_prop event "data" ;;
          reference <- get_prop d "reference" ;;
          metadata <- get_prop d "metadata" ;;
          let appointment_id := get_opt metadata "appointment_id" in
          updatePaymentStatus reference "paid" appointment_id ;;
          ret tt
        else if is_string type "charge.failed" then
          d <- get_prop event "data" ;;
          reference <- get_prop d "reference" ;;
          updatePaymentStatus reference "failed" VUndefined ;;
          ret tt
        else ret tt) ;;
       ret {| status_code := 200; sent := StatusText "OK" |})
    (fun e =>
       console_error "Webhook processing error:" ;;
       ret {| status_code := 500;
              sent := Json (VObj [("error", VStr "Webhook processing failed")]) |}).

End Server.

End Main.

(** ** src/unnamed/part_000 *)

Module Alt.

Section Server.

(** [v * 100] *)
Variable times_100 : value -> value.

(** [data?.[0]] *)
Definition first_row (d : option (list payment)) : option payment :=
  match d with
  | None => None
  | Some rows => hd_error rows
  end.

Definition createPaymentRecord (appointment_id amount_ngn : value)
    (provider ref : string) : M (option payment) :=
  try_catch
    (r <- payments_insert false appointment_id amount_ngn provider "initiated" ref ;;
     match error r with
     | Some _ => console_error "Supabase insert error"
     | None => ret tt
     end ;;
     ret (first_row (data r)))
    (fun e => console_error (message_of e) ;; ret None).

(** [app.post('/paystack/init', ...)]; the destructuring of [req.body]
    stands before the [try], so what it throws leaves the handler. *)
Definition paystack_init (req : request) : M response :=
  appointment_id <- get_prop (body req) "appointment_id" ;;
  amount_ngn <- get_prop (body req) "amount_ngn" ;;
  patient_email <- get_prop (body req) "patient_email" ;;
  if negb (truthy appointment_id) || negb (truthy amount_ngn) then
    ret {| status_code := 400;
           sent := Json (VObj [("error",
                                VStr "appointment_id and amount_ngn required")]) |}
  else
    try_catch
      (env <- ask ;;
       let ref := ("ps_ref_" ++ uuid env)%string in
       createPaymentRecord appointment_id amount_ngn "paystack" ref ;;
       json <- gateway_initialize (times_100 amount_ngn)
                 (js_or patient_email (VStr "customer@example.com")) ref
                 appointment_id ;;
       ok <- get_prop json "status" ;;
       if negb (truthy ok) then
         ret {| status_code := 500;
                sent := Json (VObj [("error", VStr "Paystack init failed");
                                    ("details", json)]) |}
       else
         d <- get_prop json "data" ;;
         authorization_url <- get_prop d "authorization_url" ;;
         access_code <- get_prop d "access_code" ;;
         ret {| status_code := 200;
                sent := Json (VObj [("authorization_url", authorization_url);
                                    ("access_code", access_code);
                                    ("reference", VStr ref)]) |})
      (fun e =>
         console_error (message_of e) ;;
         ret {| status_code := 500;
                sent := Json (VObj [("error", VStr "server error")]) |}).

(** [app.post('/paystack/webhook', ...)] *)
Definition paystack_webhook (req : request) : M response :=
  let event := body req in
  console_log "Paystack webhook received" ;;
  (if is_string (get_opt event "event") "charge.success"
      || is_string (get_opt (get_opt event "data") "status") "success" then
     let reference := get_opt (get_opt event "data") "reference" in
     try_catch
       (r <- payments_update "paid" reference ;;
        match error r with
        | Some _ => console_error "Error updating payment"
        | None => ret tt
        end ;;
        let appointment_id :=
          get_opt (get_opt (get_opt event "data") "metadata") "appointment_id" in
        if truthy appointment_id then
          appointments_update "confirmed" appointment_id ;; ret tt
        else ret tt)
       (fun e => console_error (message_of e))
   else ret tt) ;;
  ret {| status_code := 200; sent := StatusText "OK" |}.

End Server.

End Alt.

(** ** Start-up configuration of src/deepseek_javascript_20250903_d1d6a6.js *)

Module Startup.

(** [!!process.env[name]]: set, and not to the empty string. *)
Definition present (v : option string) : bool :=
  match v with
  | Some s => negb (s =? EmptyString)
  | None => false
  end.

Definition requiredEnvVars : list string :=
  ["SUPABASE_URL"; "SUPABASE_SERVICE_KEY"; "PAYSTACK_SECRET"].

(** How the first statements of the file end: the process goes on, or
    [process.exit(code)] after one line on [console.error]. *)
Inductive verdict : Type :=
| Continues
| Exits (code : Z) (logged : string).

(** The loop over [requiredEnvVars]. *)
Fixpoint validate (getenv : string -> option string) (vars : list string) : verdict :=
  match vars with
  | [] => Continues
  | envVar :: rest =>
      if negb (present (getenv envVar)) then
        Exits 1 ("ERROR: Missing required environment variable: " ++ envVar)%string
      else validate getenv rest
  end.

(** The fields of [s] between the occurrences of [sep], with the field
    being read carried in [h :: t]. *)
Fixpoint split_on (sep : Ascii.ascii) (s : string) : list string :=
  match s with
  | EmptyString => [EmptyString]
  | String c rest =>
      if Ascii.eqb c sep then EmptyString :: split_on sep rest
      else match split_on sep rest with
           | h :: t => String c h :: t
           | [] => [String c EmptyString]
           end
  end.

(** [s.split(',')]; 44 is the code of the comma. *)
Definition split_commas (s : string) : list string :=
  split_on (Ascii.ascii_of_nat 44) s.

(** [process.env[name] === literal] *)
Definition env_is (v : option string) (literal : string) : bool :=
  match v with
  | Some s => s =? literal
  | None => false
  end.

(** The [origin] option handed to [cors]. *)
Definition cors_origin (getenv : string -> option string) : list string :=
  if env_is (getenv "NODE_ENV") "production" then
    match getenv "ALLOWED_ORIGINS" with
    | Some s => if present (Some s) then split_commas s else []
    | None => []
    end
  else ["http://localhost:3000"].

End Startup.

(** ** The prescription handlers *)

Module Prescriptions.

Inductive text_options : Type :=
| Plain
| AlignCenter
| AlignRight
| Continued
| Underline.

(** The calls made on the PDF document; [MoveDown] counts half lines, so
    [moveDown()] is [MoveDown 2] and [moveDown(0.5)] is [MoveDown 1]. *)
Inductive doc_op : Type :=
| FontSize (points : Z)
| Text (content : value) (options : text_options)
| MoveDown (half_lines : nat)
| EndDocument.

(** What a handler does to the file system and to the document.  The
    path of [CreateWriteStream] holds the arguments of [path.join] after
    [__dirname], joined by a slash, as they stand before [path.join]
    normalises them. *)
Inductive action : Type :=
| MakeDirectory
| CreateWriteStream (path : string)
| Draw (op : doc_op).

Inductive thrown : Type :=
| AppError (message : string) (statusCode : Z)
| TypeError (message : string).

(** What the write stream of the file comes to. *)
Inductive stream_outcome : Type :=
| Finishes
| Fails (message : string).

(** What surrounds one request: whether the [prescriptions] directory is
    there, [new Date().toLocaleDateString()], the fate of the stream,
    [req.protocol], [uuidv4()] and [PORT]. *)
Record surroundings : Type := mkSurroundings {
  directory_exists : bool;
  today : string;
  stream : stream_outcome;
  protocol : string;
  fresh_uuid : string;
  port : string
}.

Inductive reply : Type :=
| PdfReady (pdf_url : string) (message : option string)
| Failed (e : thrown).

(** What the client gets: a response, or none at all. *)
Inductive answer : Type :=
| Answered (status : Z) (r : reply)
| Unanswered.

Definition W (A : Type) : Type := list action -> (A + thrown) * list action.

Definition ret {A} (a : A) : W A := fun t => (inl a, t).

Definition throw {A} (e : thrown) : W A := fun t => (inr e, t).

Definition bind {A B} (m : W A) (k : A -> W B) : W B :=
  fun t =>
    match m t with
    | (inl a, t') => k a t'
    | (inr e, t') => (inr e, t')
    end.

Definition act (a : action) : W unit := fun t => (inl tt, t ++ [a]).

Definition draw (op : doc_op) : W unit := act (Draw op).

(** [v.key] *)
Definition prop (v : value) (key : string) : W value :=
  match v with
  | VUndefined => throw (TypeError "Cannot destructure property of undefined")
  | VNull => throw (TypeError "Cannot destructure property of null")
  | VObj fields => ret (lookup key fields)
  | _ => ret VUndefined
  end.

(** [items.forEach((x, i) => f x i)], counting from [i]. *)
Fixpoint forEach (items : list value) (i : nat) (f : value -> nat -> W unit) : W unit :=
  match items with
  | [] => ret tt
  | x :: rest => bind (f x i) (fun _ => forEach rest (S i) f)
  end.

(** [list.forEach(...)] on a value: only arrays have the method. *)
Definition forEach_of (list : value) (f : value -> nat -> W unit) : W unit :=
  match list with
  | VArr items => forEach items 0 f
  | _ => throw (TypeError "forEach is not a function")
  end.

(** [statusCode || 500], as the error handler answers. *)
Definition next (e : thrown) : answer :=
  match e with
  | AppError _ code => Answered (if (code =? 0)%Z then 500 else code) (Failed e)
  | TypeError _ => Answered 500 (Failed e)
  end.

Section Handlers.

(** the text [v] contributes to a template literal *)
Variable js_text : value -> string.

(** [`${i + 1}. ${med}`] *)
Definition medicine_line (med : value) (i : nat) : value :=
  VStr (js_text (VNum (Z.of_nat i + 1)) ++ ". " ++ js_text med)%string.

(** [req.get('host')] inside a template literal *)
Definition host_text (req : request) : string :=
  match header "host" (headers req) with
  | Some h => h
  | None => "undefined"
  end.

(** The body of the [try] of [app.post('/prescriptions', ...)] in
    src/deepseek_javascript_20250903_d1d6a6.js, up to [doc.end()]; it returns
    the file name. *)
Definition write_prescription (req : request) (s : surroundings) : W string :=
  bind (prop (body req) "appointment_id") (fun appointment_id =>
  bind (prop (body req) "doctor_name") (fun doctor_name =>
  bind (prop (body req) "patient_name") (fun patient_name =>
  bind (prop (body req) "medicines") (fun medicines =>
  bind (prop (body req) "diagnosis") (fun diagnosis =>
  bind (prop (body req) "instructions") (fun instructions =>
  if negb (truthy appointment_id) then
    throw (AppError "appointment_id is required" 400)
  else
    let filename := ("prescription-" ++ js_text appointment_id ++ ".pdf")%string in
    bind (if negb (directory_exists s) then act MakeDirectory else ret tt) (fun _ =>
    bind (act (CreateWriteStream ("prescriptions/" ++ filename)%string)) (fun _ =>
    bind (draw (FontSize 20)) (fun _ =>
    bind (draw (Text (VStr "MEDICAL PRESCRIPTION") AlignCenter)) (fun _ =>
    bind (draw (MoveDown 2)) (fun _ =>
    bind (draw (FontSize 12)) (fun _ =>
    bind (draw (Text (VStr ("Doctor: " ++
                            js_text (js_or doctor_name (VStr "Dr. Unknown")))%string)
                  Continued)) (fun _ =>
    bind (draw (Text (VStr ("Date: " ++ today s)%string) AlignRight)) (fun _ =>
    bind (draw (Text (VStr ("Patient: " ++
                            js_text (js_or patient_name (VStr "Unknown Patient")))%string)
                  Plain)) (fun _ =>
    bind (draw (MoveDown 2)) (fun _ =>
    bind (if truthy diagnosis then
            bind (draw (Text (VStr ("Diagnosis: " ++ js_text diagnosis)%string) Plain))
              (fun _ => draw (MoveDown 2))
          else ret tt) (fun _ =>
    bind (draw (Text (VStr "Prescribed Medications:") Underline)) (fun _ =>
    bind (draw (MoveDown 1)) (fun _ =>
    bind (forEach_of (js_or medicines (VArr []))
            (fun med i => draw (Text (medicine_line med i) Plain))) (fun _ =>
    bind (draw (MoveDown 2)) (fun _ =>
    bind (if truthy instructions then
            bind (draw (Text (VStr "Additional Instructions:") Underline)) (fun _ =>
            bind (draw (MoveDown 1)) (fun _ =>
            draw (Text instructions Plain)))
          else ret tt) (fun _ =>
    bind (draw (MoveDown 4)) (fun _ =>
    bind (draw (Text (VStr "Signature: _________________________") AlignRight)) (fun _ =>
    bind (draw (Text (js_or doctor_name (VStr "Dr. Unknown")) AlignRight)) (fun _ =>
    bind (draw EndDocument) (fun _ =>
    ret filename)))))))))))))))))))))))))).

(** [app.post('/prescriptions', ...)] of
    src/deepseek_javascript_20250903_d1d6a6.js: the answer and what was done.
    The answer is sent when the stream finishes; the listener for a stream
    error throws outside the [try], so nothing is sent then. *)
Definition prescriptions (req : request) (s : surroundings) : answer * list action :=
  match write_prescription req s [] with
  | (inl filename, done) =>
      (match stream s with
       | Finishes =>
           Answered 200
             (PdfReady (protocol s ++ "://" ++ host_text req ++ "/prescriptions/" ++
                        filename)%string
                (Some "Prescription generated successfully"))
       | Fails _ => Unanswered
       end, done)
  | (inr e, done) => (next e, done)
  end.

(** The handler of src/unnamed/part_000 up to [doc.end()]; it has no
    [try], checks nothing and writes next to the script. *)
Definition alt_write_prescription (req : request) (s : surroundings) : W string :=
  bind (prop (body req) "appointment_id") (fun appointment_id =>
  bind (prop (body req) "doctor_name") (fun doctor_name =>
  bind (prop (body req) "patient_name") (fun patient_name =>
  bind (prop (body req) "medicines") (fun medicines =>
  let filename :=
    ("prescription-" ++ js_text (js_or appointment_id (VStr (fresh_uuid s))) ++ ".pdf")%string in
  bind (act (CreateWriteStream filename)) (fun _ =>
  bind (draw (FontSize 20)) (fun _ =>
  bind (draw (Text (VStr "Prescription") AlignCenter)) (fun _ =>
  bind (draw (MoveDown 2)) (fun _ =>
  bind (draw (FontSize 12)) (fun _ =>
  bind (draw (Text (VStr ("Doctor: " ++ js_text (js_or doctor_name (VStr "Dr.")))%string)
                Plain)) (fun _ =>
  bind (draw (Text (VStr ("Patient: " ++
                          js_text (js_or patient_name (VStr "Patient")))%string)
                Plain)) (fun _ =>
  bind (draw (MoveDown 2)) (fun _ =>
  bind (draw (Text (VStr "Medicines:") Plain)) (fun _ =>
  bind (forEach_of (js_or medicines (VArr [VStr "Paracetamol 500mg"]))
          (fun m i => draw (Text (medicine_line m i) Plain))) (fun _ =>
  bind (draw EndDocument) (fun _ =>
  ret filename))))))))))))))).

(** [app.post('/prescriptions', ...)] of src/unnamed/part_000; what the
    handler throws reaches the default error handler of the framework. *)
Definition alt_prescriptions (req : request) (s : surroundings) : answer * list action :=
  match alt_write_prescription req s [] with
  | (inl filename, done) =>
      (match stream s with
       | Finishes =>
           Answered 200
             (PdfReady ("http://localhost:" ++ port s ++ "/" ++ filename)%string None)
       | Fails _ => Unanswered
       end, done)
  | (inr e, done) => (Answered 500 (Failed e), done)
  end.

End Handlers.

End Prescriptions.

(** ** Concrete platform functions and data used in the examples *)

Module Sample.

(** A keyed tag that stands in for the HMAC in examples. *)
Definition hmac (key text : string) : string := (key ++ "/" ++ text)%string.

(** A serializer that stands in for [JSON.stringify] in examples. *)
Definition stringify (v : value) : string :=
  match v with
  | VObj fields => ("{" ++ String.concat "," (map fst fields) ++ "}")%string
  | _ => "?"
  end.

Definition times_100 (v : value) : value :=
  match v with
  | VNum n => VNum (n * 100)
  | _ => VUndefined
  end.

Definition text (v : value) : string :=
  match v with
  | VStr s => s
  | _ => "?"
  end.

Definition event (type reference : string) (appointment_id : value) : value :=
  VObj [("event", VStr type);
        ("data", VObj [("reference", VStr reference);
                       ("metadata", VObj [("appointment_id", appointment_id)])])].

Definition paid_row : payment :=
  {| pay_id := 0; pay_appointment_id := VStr "A1"; pay_amount_ngn := VNum 5000;
     pay_provider := "paystack"; pay_status := "paid"; pay_ref := "ps_ref_X" |}.

Definition initiated_row : payment :=
  {| pay_id := 0; pay_appointment_id := VStr "A1"; pay_amount_ngn := VNum 5000;
     pay_provider := "paystack"; pay_status := "initiated"; pay_ref := "ps_ref_X" |}.

Definition store (p : payment) : world :=
  {| payments := [p];
     appointments := [{| appt_id := "A1"; appt_status := "pending" |}];
     trace := [] |}.

(** An environment in which every collaborator does what it is asked. *)
Definition healthy : environment :=
  {| uuid := "0000"; on_insert_payment := Succeeds;
     on_gateway := Replies (VObj [("status", VBool true);
                                  ("data", VObj [("authorization_url", VStr "https://checkout");
                                                 ("access_code", VStr "ac")])]);
     on_update_payments := Succeeds; on_update_appointments := Succeeds |}.

Definition with_update_payments (o : outcome) (env : environment) : environment :=
  {| uuid := uuid env; on_insert_payment := on_insert_payment env;
     on_gateway := on_gateway env; on_update_payments := o;
     on_update_appointments := on_update_appointments env |}.

Definition with_update_appointments (o : outcome) (env : environment) : environment :=
  {| uuid := uuid env; on_insert_payment := on_insert_payment env;
     on_gateway := on_gateway env; on_update_payments := on_update_payments env;
     on_update_appointments := o |}.

Definition with_gateway (r : gateway_reply) (env : environment) : environment :=
  {| uuid := uuid env; on_insert_payment := on_insert_payment env;
     on_gateway := r; on_update_payments := on_update_payments env;
     on_update_appointments := on_update_appointments env |}.

Definition secret : option string := Some "whsec_test".

(** A request that carries the tag of its body under [secret]. *)
Definition signed (b : value) : request :=
  {| body := b;
     headers := [("x-paystack-signature", hmac "whsec_test" (stringify b))] |}.

(** A request with a signature header that does not fit its body. *)
Definition forged (b : value) : request :=
  {| body := b; headers := [("x-paystack-signature", "deadbeef")] |}.

Definition init_request : request :=
  {| body := VObj [("appointment_id", VStr "A1"); ("amount_ngn", VNum 5000)];
     headers := [] |}.

(** The gateway refuses to open a checkout. *)
Definition declined : value :=
  VObj [("status", VBool false); ("message", VStr "Invalid key")].

Definition empty_store : world :=
  {| payments := []; appointments := []; trace := [] |}.

Definition other_row : payment :=
  {| pay_id := 1; pay_appointment_id := VStr "A2"; pay_amount_ngn := VNum 700;
     pay_provider := "paystack"; pay_status := "initiated"; pay_ref := "ps_ref_Y" |}.

Definition two_payments : world :=
  {| payments := [initiated_row; other_row];
     appointments := [{| appt_id := "A1"; appt_status := "pending" |};
                      {| appt_id := "A2"; appt_status := "pending" |}];
     trace := [] |}.

(** The reply with which the gateway opens a checkout. *)
Definition accepted : value :=
  VObj [("status", VBool true);
        ("data", VObj [("authorization_url", VStr "https://checkout");
                       ("access_code", VStr "ac")])].

(** An event whose data carry a [status] of their own. *)
Definition with_status (type status reference : string) (appointment_id : value)
    : value :=
  VObj [("event", VStr type);
        ("data", VObj [("status", VStr status); ("reference", VStr reference);
                       ("metadata", VObj [("appointment_id", appointment_id)])])].

(** An event with a type and nothing else. *)
Definition bare_event (type : string) : value := VObj [("event", VStr type)].

(** A text for strings and for the numbers 1 and 2. *)
Definition label (v : value) : string :=
  match v with
  | VStr s => s
  | VNum 1 => "1"
  | VNum 2 => "2"
  | _ => "?"
  end.

Definition prescription_request (medicines : value) : request :=
  {| body := VObj [("appointment_id", VStr "A1"); ("doctor_name", VStr "Dr. Ada");
                   ("medicines", medicines)];
     headers := [("host", "api.example.org")] |}.

Definition desk : Prescriptions.surroundings :=
  {| Prescriptions.directory_exists := false; Prescriptions.today := "9/3/2025";
     Prescriptions.stream := Prescriptions.Finishes; Prescriptions.protocol := "https";
     Prescriptions.fresh_uuid := "1111"; Prescriptions.port := "4000" |}.

(** A production environment that lacks PAYSTACK_SECRET. *)
Definition production (name : string) : option string :=
  if name =? "NODE_ENV" then Some "production"
  else if name =? "ALLOWED_ORIGINS" then Some "https://a.example, https://b.example"
  else if name =? "SUPABASE_URL" then Some "https://db.example"
  else if name =? "SUPABASE_SERVICE_KEY" then Some "key"
  else None.

End Sample.

(** ** Vocabulary of the statements *)

(** [v] is [undefined] or [null]. *)
Definition nullish (v : value) : bool :=
  match v with
  | VUndefined | VNull => true
  | _ => false
  end.

(** The world after the handler logged or called [added] on top of [w]'s
    trace and left the tables as [ps] and [aps]. *)
Definition after (w : world) (ps : list payment) (aps : list appointment)
    (added : list effect) : world :=
  {| payments := ps; appointments := aps; trace := trace w ++ added |}.

(** Two rows that differ at most in [status]. *)
Definition same_but_status (p p' : payment) : Prop :=
  pay_id p' = pay_id p /\ pay_appointment_id p' = pay_appointment_id p /\
  pay_amount_ngn p' = pay_amount_ngn p /\ pay_provider p' = pay_provider p /\
  pay_ref p' = pay_ref p.

(** The table [appointments_update] leaves when the store answers [o]. *)
Definition appointments_after (o : outcome) (st : string) (id : value)
    (aps : list appointment) : list appointment :=
  match o with
  | Succeeds => map (update_appointment st id) aps
  | _ => aps
  end.

(** The calls to the store recorded in a trace, in order. *)
Definition store_calls (t : list effect) : list effect := filter is_store_call t.

(** The writes to [appointments] recorded in a trace, in order. *)
Definition appointment_writes (t : list effect) : list effect :=
  filter is_appointments_write t.

(** [p'] is [p] up to [status], and is [p] itself unless [p] carries
    [reference]. *)
Definition status_written_on (reference : value) (p p' : payment) : Prop :=
  same_but_status p p' /\ (eq_filter (pay_ref p) reference = false -> p' = p).

(** The table [payments_update] leaves when the store answers [o]. *)
Definition payments_after (o : outcome) (st : string) (reference : value)
    (ps : list payment) : list payment :=
  match o with
  | Succeeds => map (update_payment st reference) ps
  | _ => ps
  end.

(** The answers of the webhook once the signature has passed. *)
Definition acknowledged : response := {| status_code := 200; sent := StatusText "OK" |}.

Definition processing_failed : response :=
  {| status_code := 500;
     sent := Json (VObj [("error", VStr "Webhook processing failed")]) |}.

(** What the webhook makes of the result of [updatePaymentStatus]. *)
Definition answer (r : result bool * world) : result response * world :=
  match r with
  | (Ok _, w) => (Ok acknowledged, w)
  | (Throw _, w) =>
      (Ok processing_failed,
       after w (payments w) (appointments w) [ConsoleError "Webhook processing error:"])
  end.

(** Is the result of [updatePaymentStatus] a return, not a throw? *)
Definition returned {A} (r : result A) : bool :=
  match r with
  | Ok _ => true
  | Throw _ => false
  end.

(** The row the store adds for an initiation. *)
Definition initiated_row (w : world) (appointment_id amount_ngn : value)
    (ref : string) : payment :=
  {| pay_id := length (payments w); pay_appointment_id := appointment_id;
     pay_amount_ngn := amount_ngn; pay_provider := "paystack";
     pay_status := "initiated"; pay_ref := ref |}.

(** The answer of the webhook to a signature that does not verify. *)
Definition unauthorized : response :=
  {| status_code := 401; sent := Json (VObj [("error", VStr "Invalid signature")]) |}.

(** A line written with [console.warn] or [console.error]. *)
Definition is_complaint (e : effect) : bool :=
  match e with
  | ConsoleWarn _ | ConsoleError _ => true
  | _ => false
  end.

(** Does [c] occur in [s]? *)
Fixpoint has_char (c : Ascii.ascii) (s : string) : bool :=
  match s with
  | EmptyString => false
  | String c' rest => Ascii.eqb c' c || has_char c rest
  end.

(** The lines the prescription handlers draw for [items], the first of
    them numbered from [i]. *)
Definition medicine_lines (js_text : value -> string) (i : nat) (items : list value)
    : list Prescriptions.action :=
  map (fun x => Prescriptions.Draw
                  (Prescriptions.Text (Prescriptions.medicine_line js_text (snd x) (fst x))
                     Prescriptions.Plain))
      (combine (seq i (length items)) items).

(** ** Properties of the payment handlers *)

Section MainProperties.

Variable hmac_sha512_hex : string -> string -> string.
Variable JSON_stringify : value -> string.
Variable times_100 : value -> value.
Variable js_text : value -> string.
Variable PAYSTACK_WEBHOOK_SECRET : option string.

Local Abbreviation secret_in_use := (Main.configured_secret PAYSTACK_WEBHOOK_SECRET).
Local Abbreviation verify :=
  (Main.verifyPaystackSignature hmac_sha512_hex JSON_stringify PAYSTACK_WEBHOOK_SECRET).
Local Abbreviation webhook :=
  (Main.paystack_webhook hmac_sha512_hex JSON_stringify PAYSTACK_WEBHOOK_SECRET).
Local Abbreviation init := (Main.paystack_init times_100 js_text).

Lemma store_calls_app (t added : list effect) :
  store_calls (t ++ added) = store_calls t ++ store_calls added.
Proof. apply filter_app. Qed.

Lemma configured_secret_none :
  secret_in_use = None <->
  PAYSTACK_WEBHOOK_SECRET = None \/ PAYSTACK_WEBHOOK_SECRET = Some EmptyString.
Proof.
  unfold Main.configured_secret.
  destruct PAYSTACK_WEBHOOK_SECRET as [s|]; [|tauto].
  destruct (String.eqb_spec s EmptyString) as [->|Hne].
  - tauto.
  - split; [discriminate|].
    intros [H|H]; [discriminate|]. injection H as H. contradiction.
Qed.

Lemma same_signature_true (hash : string) (h : option string) :
  Main.same_signature hash h = true <-> h = Some hash.
Proof.
  destruct h as [s|]; simpl.
  - rewrite String.eqb_eq. split; [intros ->; reflexivity|].
    intros H. injection H as ->. reflexivity.
  - split; discriminate.
Qed.

(** C9. Without a configured secret the verifier logs a warning and
    accepts; with a secret it answers, without throwing, [true] exactly when
    the signature header carries the hex HMAC-SHA512 of the serialized body
    under that secret. *)
Theorem verifyPaystackSignature_policy (req : request) (env : environment) (w : world) :
  (secret_in_use = None ->
   verify req env w =
     (Ok true,
      after w (payments w) (appointments w)
        [ConsoleWarn
           "Paystack webhook secret not configured, skipping signature verification"]))
  /\
  (forall secret, secret_in_use = Some secret ->
   body req <> VUndefined ->
   exists b, verify req env w = (Ok b, w) /\
     (b = true <->
      header "x-paystack-signature" (headers req) =
        Some (hmac_sha512_hex secret (JSON_stringify (body req))))).
Proof.
  unfold Main.verifyPaystackSignature. split.
  - intros ->. reflexivity.
  - intros secret -> Hbody.
    exists (Main.same_signature (hmac_sha512_hex secret (JSON_stringify (body req)))
              (header "x-paystack-signature" (headers req))).
    split; [|apply same_signature_true].
    destruct (body req); try reflexivity. contradiction.
Qed.

(** The verifier answers [false] only without touching the world. *)
Lemma verify_false_pure (req : request) (env : environment) (w w0 : world) :
  verify req env w = (Ok false, w0) ->
  w0 = w /\ exists secret, secret_in_use = Some secret.
Proof.
  unfold Main.verifyPaystackSignature.
  destruct secret_in_use as [secret|]; [|discriminate].
  intros H. split; [|eauto].
  destruct (body req); cbv [ret throw] in H; congruence.
Qed.

Lemma webhook_rejects (req : request) (env : environment) (w w0 : world) :
  verify req env w = (Ok false, w0) ->
  webhook req env w =
    (Ok {| status_code := 401;
           sent := Json (VObj [("error", VStr "Invalid signature")]) |},
     after w (payments w) (appointments w) [ConsoleError "Invalid webhook signature"]).
Proof.
  intros H. destruct (verify_false_pure _ _ _ _ H) as [-> _].
  unfold Main.paystack_webhook, try_catch, bind. rewrite H. reflexivity.
Qed.

(** C4. With a configured secret, a webhook whose signature header is not
    the hex HMAC-SHA512 of its serialized body under that secret is answered
    with 401, and the handler leaves both tables as they were and calls the
    store not at all: it only logs the rejection. Without a configured secret
    the handler answers without regard to the headers, and so does the
    handler of part_000 in every case: there no signature is looked at. *)
Theorem invalid_signature_rejected (req : request) (env : environment) (w : world) :
  (forall secret, secret_in_use = Some secret ->
   body req <> VUndefined ->
   header "x-paystack-signature" (headers req) <>
     Some (hmac_sha512_hex secret (JSON_stringify (body req))) ->
   exists w',
     webhook req env w = (Ok unauthorized, w') /\
     payments w' = payments w /\ appointments w' = appointments w /\
     store_calls (trace w') = store_calls (trace w) /\
     trace w' = trace w ++ [ConsoleError "Invalid webhook signature"])
  /\
  (secret_in_use = None ->
   forall hs, webhook {| body := body req; headers := hs |} env w = webhook req env w)
  /\
  (forall hs,
     Alt.paystack_webhook {| body := body req; headers := hs |} env w =
     Alt.paystack_webhook req env w).
Proof.
  split; [|split].
  - intros secret Hsecret Hbody Hsig.
    assert (Hv : verify req env w = (Ok false, w)).
    { unfold Main.verifyPaystackSignature. rewrite Hsecret.
      assert (Hsame : Main.same_signature
                        (hmac_sha512_hex secret (JSON_stringify (body req)))
                        (header "x-paystack-signature" (headers req)) = false).
      { apply not_true_is_false. intros Hsame.
        apply same_signature_true in Hsame. contradiction. }
      destruct (body req); [contradiction|..]; cbv zeta; rewrite Hsame; reflexivity. }
    eexists. split; [apply (webhook_rejects _ _ _ _ Hv)|].
    cbn. rewrite store_calls_app. cbn. rewrite app_nil_r. auto.
  - intros Hnone hs.
    unfold Main.paystack_webhook, Main.verifyPaystackSignature. rewrite Hnone.
    reflexivity.
  - intros hs. reflexivity.
Qed.

(** *** Symbolic execution of [updatePaymentStatus] and of the webhook *)

Lemma updatePaymentStatus_run (reference : value) (st : string) (appt : value)
    (env : environment) (w : world) :
  Main.updatePaymentStatus reference st appt env w =
  let a := default_null appt in
  match on_update_payments env with
  | Succeeds =>
      let ps := map (update_payment st reference) (payments w) in
      if (st =? "paid") && truthy a then
        match on_update_appointments env with
        | Succeeds =>
            (Ok true,
             after w ps (map (update_appointment "confirmed" a) (appointments w))
               [PaymentsUpdate st reference Succeeds;
                AppointmentsUpdate "confirmed" a Succeeds])
        | ReturnsError m =>
            (Ok true,
             after w ps (appointments w)
               [PaymentsUpdate st reference Succeeds;
                AppointmentsUpdate "confirmed" a (ReturnsError m);
                ConsoleError "Failed to update appointment status:"])
        | Rejects m =>
            (Throw (DatabaseError "Unexpected error updating payment status"),
             after w ps (appointments w)
               [PaymentsUpdate st reference Succeeds;
                AppointmentsUpdate "confirmed" a (Rejects m)])
        end
      else (Ok true, after w ps (appointments w) [PaymentsUpdate st reference Succeeds])
  | ReturnsError m =>
      (Throw (DatabaseError ("Failed to update payment status: " ++ m)%string),
       after w (payments w) (appointments w)
         [PaymentsUpdate st reference (ReturnsError m)])
  | Rejects m =>
      (Throw (DatabaseError "Unexpected error updating payment status"),
       after w (payments w) (appointments w)
         [PaymentsUpdate st reference (Rejects m)])
  end.
Proof.
  unfold Main.updatePaymentStatus, try_catch, bind, payments_update,
    appointments_update, console_error, emit, ret, throw, after.
  destruct (on_update_payments env); cbn [error instanceof_AppError]; try reflexivity.
  destruct ((st =? "paid") && truthy (default_null appt)); cbn; try reflexivity.
  destruct (on_update_appointments env); cbn; rewrite <- ?app_assoc; reflexivity.
Qed.

Lemma get_prop_defined (v : value) (key : string) :
  nullish v = false -> get_prop v key = ret (get_opt v key).
Proof. destruct v; cbn; intros H; try discriminate; reflexivity. Qed.

Lemma get_prop_nullish (v : value) (key : string) (env : environment) (w : world) :
  nullish v = true -> exists m, get_prop v key env w = (Throw (TypeError m), w).
Proof. destruct v; cbn; intros H; try discriminate; eexists; reflexivity. Qed.

(** A passed verification leaves the tables alone and calls no store. *)
Lemma verify_true_frame (req : request) (env : environment) (w w1 : world) :
  verify req env w = (Ok true, w1) ->
  payments w1 = payments w /\ appointments w1 = appointments w /\
  store_calls (trace w1) = store_calls (trace w).
Proof.
  unfold Main.verifyPaystackSignature.
  destruct secret_in_use as [secret|].
  - destruct (body req); cbv [ret throw]; intros H; inversion H; subst; auto.
  - cbv [bind console_warn emit ret]. intros H. inversion H; subst; cbn.
    unfold store_calls. rewrite filter_app. cbn. rewrite app_nil_r. auto.
Qed.

Lemma webhook_run (req : request) (env : environment) (w w1 : world) :
  verify req env w = (Ok true, w1) ->
  nullish (body req) = false ->
  let event := body req in
  let type := get_opt event "event" in
  let d := get_opt event "data" in
  let w2 := after w1 (payments w1) (appointments w1) [ConsoleLog "Paystack webhook received"] in
  webhook req env w =
    if is_string type "charge.success" then
      if nullish d then answer (Throw (TypeError EmptyString), w2)
      else answer (Main.updatePaymentStatus (get_opt d "reference") "paid"
                     (get_opt (get_opt d "metadata") "appointment_id") env w2)
    else if is_string type "charge.failed" then
      if nullish d then answer (Throw (TypeError EmptyString), w2)
      else answer (Main.updatePaymentStatus (get_opt d "reference") "failed"
                     VUndefined env w2)
    else (Ok acknowledged, w2).
Proof.
  intros Hv Hb. cbn zeta.
  unfold Main.paystack_webhook, try_catch. unfold bind at 1. rewrite Hv. cbn [negb].
  rewrite (get_prop_defined _ "event" Hb).
  unfold bind at 1. cbv [ret]. unfold bind at 1.
  change (console_log "Paystack webhook received" env w1)
    with (Ok tt, after w1 (payments w1) (appointments w1)
                   [ConsoleLog "Paystack webhook received"]).
  cbv iota beta.
  set (w2 := after w1 _ _ _).
  destruct (is_string (get_opt (body req) "event") "charge.success").
  - destruct (nullish (get_opt (body req) "data")) eqn:Hd.
    + destruct (get_prop_nullish _ "data" env w2 Hd) as [m Hm].
      unfold bind. rewrite (get_prop_defined _ "data" Hb). cbv [ret].
      destruct (get_prop_nullish _ "reference" env w2 Hd) as [m' Hm'].
      rewrite Hm'. reflexivity.
    + unfold bind. rewrite (get_prop_defined _ "data" Hb). cbv [ret].
      rewrite (get_prop_defined _ "reference" Hd), (get_prop_defined _ "metadata" Hd).
      cbv [ret].
      destruct (Main.updatePaymentStatus _ _ _ env w2) as [[b|e] w3]; reflexivity.
  - destruct (is_string (get_opt (body req) "event") "charge.failed").
    + destruct (nullish (get_opt (body req) "data")) eqn:Hd.
      * unfold bind. rewrite (get_prop_defined _ "data" Hb). cbv [ret].
        destruct (get_prop_nullish _ "reference" env w2 Hd) as [m' Hm'].
        rewrite Hm'. reflexivity.
      * unfold bind. rewrite (get_prop_defined _ "data" Hb). cbv [ret].
        rewrite (get_prop_defined _ "reference" Hd). cbv [ret].
        destruct (Main.updatePaymentStatus _ _ _ env w2) as [[b|e] w3]; reflexivity.
    + reflexivity.
Qed.

(** What one call of [updatePaymentStatus] does to the tables and which
    store calls it makes. *)
Lemma updatePaymentStatus_effects (reference : value) (st : string) (appt : value)
    (env : environment) (w : world) :
  exists r w' rest,
    Main.updatePaymentStatus reference st appt env w = (r, w') /\
    payments w' = payments_after (on_update_payments env) st reference (payments w) /\
    store_calls (trace w') =
      store_calls (trace w) ++ PaymentsUpdate st reference (on_update_payments env) :: rest /\
    (rest = [] /\ appointments w' = appointments w /\
     (on_update_payments env = Succeeds ->
      (st =? "paid") && truthy (default_null appt) = false) \/
     rest = [AppointmentsUpdate "confirmed" (default_null appt) (on_update_appointments env)] /\
     st = "paid" /\ truthy (default_null appt) = true /\
     on_update_payments env = Succeeds /\
     appointments w' =
       appointments_after (on_update_appointments env) "confirmed" (default_null appt)
         (appointments w)) /\
    (returned r = true <->
     on_update_payments env = Succeeds /\
     (rest = [] \/ forall m, on_update_appointments env <> Rejects m)).
Proof.
  rewrite updatePaymentStatus_run. cbn zeta.
  destruct (on_update_payments env) eqn:Ho.
  - destruct ((st =? "paid") && truthy (default_null appt)) eqn:Hc.
    + apply andb_prop in Hc. destruct Hc as [Hst Ha]. apply String.eqb_eq in Hst.
      destruct (on_update_appointments env) eqn:Ha';
        do 2 eexists;
        eexists [AppointmentsUpdate "confirmed" (default_null appt) _];
        (split; [reflexivity|]); cbn [after payments appointments trace payments_after];
        rewrite store_calls_app; cbn;
        (split; [reflexivity|]); (split; [reflexivity|]);
        (split; [right; cbn; auto 6|]).
      * split; [|reflexivity]. intros _. split; [reflexivity|].
        right. intros; discriminate.
      * split; [|reflexivity]. intros _. split; [reflexivity|].
        right. intros; discriminate.
      * split; [discriminate|].
        intros [_ [H|H]]; [discriminate|]. exfalso. eapply H. reflexivity.
    + do 2 eexists; exists []. split; [reflexivity|].
      cbn [after payments appointments trace payments_after].
      rewrite store_calls_app. cbn. repeat split; auto.
  - do 2 eexists; exists []. split; [reflexivity|].
    cbn [after payments appointments trace payments_after].
    rewrite store_calls_app. cbn.
    do 2 (split; [reflexivity|]). split; [left; repeat split; discriminate|].
    split; [discriminate|]. intros [H _]. discriminate.
  - do 2 eexists; exists []. split; [reflexivity|].
    cbn [after payments appointments trace payments_after].
    rewrite store_calls_app. cbn.
    do 2 (split; [reflexivity|]). split; [left; repeat split; discriminate|].
    split; [discriminate|]. intros [H _]. discriminate.
Qed.

(** [answer] adds at most a log line and maps a return to 200, a throw
    to 500. *)
Lemma answer_frame (r : result bool) (w3 : world) :
  exists w',
    answer (r, w3) =
      (Ok (if returned r then acknowledged else processing_failed), w') /\
    payments w' = payments w3 /\ appointments w' = appointments w3 /\
    store_calls (trace w') = store_calls (trace w3).
Proof.
  destruct r; cbn; eexists; (split; [reflexivity|]); cbn; auto.
  rewrite store_calls_app. cbn. rewrite app_nil_r. auto.
Qed.

Lemma is_string_inj (v : value) (a b : string) :
  is_string v a = true -> is_string v b = true -> a = b.
Proof.
  destruct v; cbn; try discriminate.
  rewrite !String.eqb_eq. congruence.
Qed.

(** The world in which the webhook starts to reconcile: verified, and
    the receipt logged. *)
Lemma receipt_frame (req : request) (env : environment) (w w1 : world) :
  verify req env w = (Ok true, w1) ->
  let w2 := after w1 (payments w1) (appointments w1)
              [ConsoleLog "Paystack webhook received"] in
  payments w2 = payments w /\ appointments w2 = appointments w /\
  store_calls (trace w2) = store_calls (trace w).
Proof.
  intros Hv. destruct (verify_true_frame _ _ _ _ Hv) as (Hp & Ha & Ht).
  cbn. rewrite store_calls_app. cbn. rewrite app_nil_r. auto.
Qed.

(** The webhook on a verified [charge.success] or [charge.failed] event
    whose [data] can be read: one [updatePaymentStatus], answered. *)
Lemma webhook_reconciles (req : request) (env : environment) (w w1 : world)
    (st : string) :
  verify req env w = (Ok true, w1) ->
  nullish (body req) = false ->
  let type := get_opt (body req) "event" in
  let d := get_opt (body req) "data" in
  let reference := get_opt d "reference" in
  nullish d = false ->
  (is_string type "charge.success" = true /\ st = "paid" \/
   is_string type "charge.failed" = true /\ st = "failed") ->
  exists appt (r : result bool) w' rest,
    webhook req env w =
      (Ok (if returned r then acknowledged else processing_failed), w') /\
    appt = (if st =? "paid" then get_opt (get_opt d "metadata") "appointment_id"
            else VUndefined) /\
    payments w' = payments_after (on_update_payments env) st reference (payments w) /\
    store_calls (trace w') =
      store_calls (trace w) ++ PaymentsUpdate st reference (on_update_payments env) :: rest /\
    (rest = [] /\ appointments w' = appointments w /\
     (on_update_payments env = Succeeds ->
      (st =? "paid") && truthy (default_null appt) = false) \/
     rest = [AppointmentsUpdate "confirmed" (default_null appt) (on_update_appointments env)] /\
     st = "paid" /\ truthy (default_null appt) = true /\
     on_update_payments env = Succeeds /\
     appointments w' =
       appointments_after (on_update_appointments env) "confirmed" (default_null appt)
         (appointments w)) /\
    (returned r = true <->
     on_update_payments env = Succeeds /\
     (rest = [] \/ forall m, on_update_appointments env <> Rejects m)).
Proof.
  intros Hv Hb type d reference Hd Hcase.
  pose proof (webhook_run req env w w1 Hv Hb) as Hrun. cbn zeta in Hrun.
  destruct (receipt_frame _ _ _ _ Hv) as (Hp & Ha & Ht). cbn zeta in Hp, Ha, Ht.
  fold type d in Hrun. rewrite Hd in Hrun.
  set (w2 := after w1 (payments w1) (appointments w1)
               [ConsoleLog "Paystack webhook received"]) in *.
  set (appt := if st =? "paid" then get_opt (get_opt d "metadata") "appointment_id"
               else VUndefined).
  assert (Hcall : webhook req env w =
                  answer (Main.updatePaymentStatus reference st appt env w2)).
  { rewrite Hrun. destruct Hcase as [[Ht1 ->]|[Ht1 ->]].
    - rewrite Ht1. reflexivity.
    - destruct (is_string type "charge.success") eqn:Hs.
      + pose proof (is_string_inj _ _ _ Hs Ht1). discriminate.
      + rewrite Ht1. reflexivity. }
  destruct (updatePaymentStatus_effects reference st appt env w2)
    as (r & w3 & rest & Hu & Hp3 & Ht3 & Hrest & Hret).
  destruct (answer_frame r w3) as (w' & Hans & Hp' & Ha' & Ht').
  exists appt, r, w', rest.
  rewrite Hcall, Hu, Hans, Hp', Ht', Hp3, Ht3, Hp, Ht.
  do 4 (split; [reflexivity|]). split; [|exact Hret].
  destruct Hrest as [(-> & Happ & Hno)|(-> & Hst & Htr & Ho & Happ)]; [left|right].
  - split; [reflexivity|]. rewrite Ha', Happ. auto.
  - rewrite Ha', Happ, Ha. auto.
Qed.

(** *** Symbolic execution of the webhook of src/unnamed/part_000 *)

(** The webhook of part_000 answers 200; it reconciles, always towards
    [paid], when the event type is [charge.success] or [data.status] is
    [success], and confirms the appointment unless the metadata carry no
    [appointment_id] or the payment update threw. *)
Lemma alt_webhook_effects (req : request) (env : environment) (w : world) :
  let type := get_opt (body req) "event" in
  let d := get_opt (body req) "data" in
  let reference := get_opt d "reference" in
  let appointment_id := get_opt (get_opt d "metadata") "appointment_id" in
  let o := on_update_payments env in
  exists w',
    Alt.paystack_webhook req env w = (Ok acknowledged, w') /\
    if is_string type "charge.success" || is_string (get_opt d "status") "success" then
      payments w' = payments_after o "paid" reference (payments w) /\
      exists rest,
        store_calls (trace w') =
          store_calls (trace w) ++ PaymentsUpdate "paid" reference o :: rest /\
        (rest = [] /\ appointments w' = appointments w /\
         (truthy appointment_id = false \/ exists m, o = Rejects m)
         \/
         rest = [AppointmentsUpdate "confirmed" appointment_id
                   (on_update_appointments env)] /\
         truthy appointment_id = true /\ (forall m, o <> Rejects m) /\
         appointments w' =
           appointments_after (on_update_appointments env) "confirmed" appointment_id
             (appointments w))
    else
      payments w' = payments w /\ appointments w' = appointments w /\
      store_calls (trace w') = store_calls (trace w).
Proof.
  cbn zeta. unfold Alt.paystack_webhook. unfold bind at 1. cbv [console_log emit].
  unfold bind at 1.
  destruct (is_string (get_opt (body req) "event") "charge.success"
            || is_string (get_opt (get_opt (body req) "data") "status") "success").
  - unfold try_catch, bind, payments_update, appointments_update, console_error, emit, ret.
    cbn [payments appointments trace].
    destruct (on_update_payments env) eqn:Ho; cbn [error payments appointments trace];
      try destruct (truthy _) eqn:Hid; cbn [payments appointments trace];
      try destruct (on_update_appointments env) eqn:Ha; cbn [payments appointments trace];
      eexists; (split; [reflexivity|]);
      cbn [payments appointments trace payments_after appointments_after];
      (split; [reflexivity|]);
      rewrite <- ?app_assoc; rewrite !store_calls_app; cbn [app];
      cbn [store_calls filter is_store_call app]; rewrite ?app_nil_r.
    all: try (exists []; split; [reflexivity|]; left; eauto 6; fail).
    all: eexists; (split; [reflexivity|]); right;
      repeat split; try reflexivity; intros; discriminate.
  - eexists. split; [reflexivity|]. cbn [payments appointments trace].
    rewrite store_calls_app. cbn. rewrite app_nil_r. auto.
Qed.

(** C5. In the first file the event type of a verified delivery selects
    the action: [charge.success] makes one payment update with target status
    [paid], [charge.failed] makes one with target status [failed] (and no
    other store call), both on the rows matching the event's reference; any
    other type calls the store not at all, changes no table and is answered
    200. In part_000 the type does not decide alone: the payment update, always
    with target status [paid], is made when the type is [charge.success] or
    when [data.status] is [success], whatever the type; every other event, a
    [charge.failed] one too, calls the store not at all and changes no table;
    and every event is answered 200. *)
Theorem event_type_determines_action (req : request) (env : environment) (w w1 : world) :
  let type := get_opt (body req) "event" in
  let d := get_opt (body req) "data" in
  let reference := get_opt d "reference" in
  let o := on_update_payments env in
  (verify req env w = (Ok true, w1) ->
   nullish (body req) = false ->
   (is_string type "charge.success" = true -> nullish d = false ->
    exists resp w' rest,
      webhook req env w = (Ok resp, w') /\
      store_calls (trace w') =
        store_calls (trace w) ++ PaymentsUpdate "paid" reference o :: rest /\
      Forall (fun e => is_appointments_write e = true) rest /\
      payments w' = payments_after o "paid" reference (payments w))
   /\
   (is_string type "charge.failed" = true -> nullish d = false ->
    exists resp w',
      webhook req env w = (Ok resp, w') /\
      store_calls (trace w') =
        store_calls (trace w) ++ [PaymentsUpdate "failed" reference o] /\
      payments w' = payments_after o "failed" reference (payments w) /\
      appointments w' = appointments w)
   /\
   (is_string type "charge.success" = false ->
    is_string type "charge.failed" = false ->
    exists w',
      webhook req env w = (Ok acknowledged, w') /\
      store_calls (trace w') = store_calls (trace w) /\
      payments w' = payments w /\ appointments w' = appointments w))
  /\
  (is_string type "charge.success" = true \/
   is_string (get_opt d "status") "success" = true ->
   exists w' rest,
     Alt.paystack_webhook req env w = (Ok acknowledged, w') /\
     store_calls (trace w') =
       store_calls (trace w) ++ PaymentsUpdate "paid" reference o :: rest /\
     Forall (fun e => is_appointments_write e = true) rest /\
     payments w' = payments_after o "paid" reference (payments w))
  /\
  (is_string type "charge.success" = false ->
   is_string (get_opt d "status") "success" = false ->
   exists w',
     Alt.paystack_webhook req env w = (Ok acknowledged, w') /\
     store_calls (trace w') = store_calls (trace w) /\
     payments w' = payments w /\ appointments w' = appointments w).
Proof.
  intros type d reference o. split; [|split].
  - intros Hv Hb. split; [|split].
    + intros Ht Hd.
      destruct (webhook_reconciles req env w w1 "paid" Hv Hb Hd
                  (or_introl (conj Ht eq_refl)))
        as (appt & r & w' & rest & Hrun & _ & Hp & Hc & Hrest & _).
      exists (if returned r then acknowledged else processing_failed), w', rest.
      repeat split; auto.
      destruct Hrest as [(-> & _)|(-> & _)]; repeat constructor.
    + intros Ht Hd.
      destruct (webhook_reconciles req env w w1 "failed" Hv Hb Hd
                  (or_intror (conj Ht eq_refl)))
        as (appt & r & w' & rest & Hrun & _ & Hp & Hc & Hrest & _).
      destruct Hrest as [(-> & Ha & _)|(_ & Hst & _)]; [|discriminate].
      exists (if returned r then acknowledged else processing_failed), w'. auto.
    + intros Hs Hf.
      pose proof (webhook_run req env w w1 Hv Hb) as Hrun. cbn zeta in Hrun.
      fold type in Hrun. rewrite Hs, Hf in Hrun.
      destruct (receipt_frame _ _ _ _ Hv) as (Hp & Ha & Ht).
      eexists. split; [exact Hrun|]. auto.
  - intros Htrigger.
    destruct (alt_webhook_effects req env w) as (w' & Hrun & Heff). cbn zeta in Heff.
    fold type d reference o in Heff.
    assert (Hor : is_string type "charge.success"
                  || is_string (get_opt d "status") "success" = true).
    { apply orb_true_iff. exact Htrigger. }
    rewrite Hor in Heff. destruct Heff as (Hp & rest & Hc & Hrest).
    exists w', rest. repeat split; auto.
    destruct Hrest as [(-> & _)|(-> & _)]; repeat constructor.
  - intros Hs Hst.
    destruct (alt_webhook_effects req env w) as (w' & Hrun & Heff). cbn zeta in Heff.
    fold type d in Heff. rewrite Hs, Hst in Heff. cbn [orb] in Heff.
    destruct Heff as (Hp & Ha & Hc). exists w'. auto.
Qed.

Lemma update_payment_matching (st r : string) (p : payment) :
  pay_ref p = r -> update_payment st (VStr r) p = set_status st p.
Proof.
  intros <-. unfold update_payment, eq_filter. cbn [js_String].
  rewrite String.eqb_refl. reflexivity.
Qed.

Lemma update_payment_ref (st : string) (reference : value) (p : payment) :
  pay_ref (update_payment st reference p) = pay_ref p.
Proof. unfold update_payment. destruct (eq_filter _ _); reflexivity. Qed.

Lemma updated_rows_have_status (st r : string) (ps : list payment) (p' : payment) :
  In p' (map (update_payment st (VStr r)) ps) -> pay_ref p' = r -> pay_status p' = st.
Proof.
  intros Hin Hr. apply in_map_iff in Hin. destruct Hin as (p & <- & _).
  rewrite update_payment_ref in Hr.
  rewrite (update_payment_matching st r p Hr). reflexivity.
Qed.

Lemma reference_readable (b : value) (r : string) :
  get_opt (get_opt b "data") "reference" = VStr r -> nullish (get_opt b "data") = false.
Proof. destruct (get_opt b "data"); cbn; intros H; try discriminate; reflexivity. Qed.

(** C1, as the code has it. A verified [charge.failed] event overwrites:
    when the store applies the update, every payment carrying the event's
    reference, a [paid] one too, ends with status [failed]; the payments stay
    as they were only when the store does not apply the update. *)
Theorem charge_failed_overwrites_paid (req : request) (env : environment)
    (w w1 : world) (r : string) (p : payment) :
  verify req env w = (Ok true, w1) ->
  nullish (body req) = false ->
  is_string (get_opt (body req) "event") "charge.failed" = true ->
  get_opt (get_opt (body req) "data") "reference" = VStr r ->
  In p (payments w) -> pay_ref p = r -> pay_status p = "paid" ->
  exists resp w',
    webhook req env w = (Ok resp, w') /\
    (on_update_payments env = Succeeds ->
     In (set_status "failed" p) (payments w') /\
     forall p', In p' (payments w') -> pay_ref p' = r -> pay_status p' = "failed") /\
    (on_update_payments env <> Succeeds -> payments w' = payments w).
Proof.
  intros Hv Hb Ht Href Hin Hr Hpaid.
  pose proof (reference_readable _ _ Href) as Hd.
  destruct (webhook_reconciles req env w w1 "failed" Hv Hb Hd (or_intror (conj Ht eq_refl)))
    as (appt & res & w' & rest & Hrun & _ & Hp & _).
  rewrite Href in Hp.
  exists (if returned res then acknowledged else processing_failed), w'.
  split; [exact Hrun|]. split.
  - intros Ho. rewrite Ho in Hp. cbn in Hp. rewrite Hp. split.
    + rewrite <- (update_payment_matching "failed" r p Hr). apply in_map. exact Hin.
    + intros p'. apply updated_rows_have_status.
  - intros Ho. rewrite Hp. destruct (on_update_payments env); [contradiction| |]; reflexivity.
Qed.

(** C3, as the code has it. A verified, parsed delivery is answered 200
    when its event type is ignored and, for a [charge.success] or
    [charge.failed] event with readable [data], when the payment update
    succeeds and the appointment call does not throw, so also when the
    appointment update returns an error; when the payment update fails, the
    answer is 500. *)
Theorem webhook_acknowledgement (req : request) (env : environment) (w w1 : world) :
  verify req env w = (Ok true, w1) ->
  nullish (body req) = false ->
  let type := get_opt (body req) "event" in
  let d := get_opt (body req) "data" in
  (is_string type "charge.success" = false ->
   is_string type "charge.failed" = false ->
   fst (webhook req env w) = Ok acknowledged)
  /\
  (is_string type "charge.success" = true \/ is_string type "charge.failed" = true ->
   nullish d = false ->
   (on_update_payments env = Succeeds ->
    (forall m, on_update_appointments env <> Rejects m) ->
    fst (webhook req env w) = Ok acknowledged) /\
   (on_update_payments env <> Succeeds ->
    fst (webhook req env w) = Ok processing_failed)).
Proof.
  intros Hv Hb type d. split.
  - intros Hs Hf.
    pose proof (webhook_run req env w w1 Hv Hb) as Hrun. cbn zeta in Hrun.
    fold type in Hrun. rewrite Hs, Hf in Hrun. rewrite Hrun. reflexivity.
  - intros Ht Hd.
    assert (Hcase : exists st,
               is_string type "charge.success" = true /\ st = "paid" \/
               is_string type "charge.failed" = true /\ st = "failed").
    { destruct Ht as [Ht|Ht]; [exists "paid"|exists "failed"]; auto. }
    destruct Hcase as [st Hcase].
    destruct (webhook_reconciles req env w w1 st Hv Hb Hd Hcase)
      as (appt & r & w' & rest & Hrun & _ & _ & _ & _ & Hret).
    rewrite Hrun. cbn [fst]. split.
    + intros Ho Ha. destruct (returned r); [reflexivity|].
      destruct Hret as [_ Hret]. discriminate Hret. auto.
    + intros Ho. destruct (returned r); [|reflexivity].
      destruct Hret as [Hret _]. destruct (Hret eq_refl) as [Ho' _]. contradiction.
Qed.

Lemma default_null_truthy (v : value) :
  truthy (default_null v) = true -> default_null v = v.
Proof. destruct v; cbn; intros H; try discriminate; reflexivity. Qed.


Lemma verify_deterministic (req : request) (env env' : environment) (w w1 w0 : world) :
  verify req env w = (Ok true, w1) ->
  exists w0', verify req env' w0 = (Ok true, w0').
Proof.
  unfold Main.verifyPaystackSignature.
  destruct secret_in_use as [secret|].
  - destruct (body req); cbv [ret throw]; intros H; try discriminate;
      injection H as Hsig _; rewrite Hsig; eexists; reflexivity.
  - intros _. eexists. reflexivity.
Qed.

Lemma update_payment_idem (st : string) (reference : value) (p : payment) :
  update_payment st reference (update_payment st reference p) =
  update_payment st reference p.
Proof.
  unfold update_payment.
  destruct (eq_filter (pay_ref p) reference) eqn:E; cbn; rewrite E; reflexivity.
Qed.

Lemma payments_after_idem (o : outcome) (st : string) (reference : value)
    (ps : list payment) :
  payments_after o st reference (map (update_payment st reference) ps) =
  map (update_payment st reference) ps.
Proof.
  destruct o; cbn; try reflexivity.
  rewrite map_map. apply map_ext. intros p. apply update_payment_idem.
Qed.

Lemma update_appointment_idem (st : string) (id : value) (a : appointment) :
  update_appointment st id (update_appointment st id a) = update_appointment st id a.
Proof.
  unfold update_appointment.
  destruct (eq_filter (appt_id a) id) eqn:E; cbn; rewrite E; reflexivity.
Qed.

(** Whatever the verifier answers, it leaves the tables alone and calls no
    store. *)
Lemma verify_frame (req : request) (env : environment) (w w1 : world)
    (r : result bool) :
  verify req env w = (r, w1) ->
  payments w1 = payments w /\ appointments w1 = appointments w /\
  store_calls (trace w1) = store_calls (trace w).
Proof.
  unfold Main.verifyPaystackSignature.
  destruct secret_in_use as [secret|].
  - destruct (body req); cbv [ret throw]; intros H; inversion H; subst; auto.
  - cbv [bind console_warn emit ret]. intros H. inversion H; subst; cbn.
    rewrite store_calls_app. cbn. rewrite app_nil_r. auto.
Qed.

Lemma appointment_writes_store_calls (t : list effect) :
  appointment_writes t = appointment_writes (store_calls t).
Proof.
  unfold appointment_writes, store_calls.
  induction t as [|e t IH]; [reflexivity|].
  destruct e; cbn; congruence.
Qed.

Lemma status_written_on_refl (reference : value) (ps : list payment) :
  Forall2 (status_written_on reference) ps ps.
Proof.
  induction ps as [|p ps IH]; constructor; [|exact IH].
  unfold status_written_on, same_but_status. auto 7.
Qed.

Lemma status_written_on_update (st : string) (reference : value) (ps : list payment) :
  Forall2 (status_written_on reference) ps (map (update_payment st reference) ps).
Proof.
  induction ps as [|p ps IH]; cbn; constructor; [|exact IH].
  unfold status_written_on, same_but_status, update_payment.
  destruct (eq_filter (pay_ref p) reference); cbn; auto 7.
  split; [auto 7|discriminate].
Qed.

Lemma status_written_on_after (o : outcome) (st : string) (reference : value)
    (ps : list payment) :
  Forall2 (status_written_on reference) ps (payments_after o st reference ps).
Proof.
  destruct o; cbn; auto using status_written_on_refl, status_written_on_update.
Qed.

(** Every run of the webhook answers, and either leaves the tables and the
    store alone or is one of the two reconciliations. *)
Lemma webhook_total (req : request) (env : environment) (w : world) :
  exists resp w',
    webhook req env w = (Ok resp, w') /\
    (payments w' = payments w /\ appointments w' = appointments w /\
     store_calls (trace w') = store_calls (trace w)
     \/
     exists w1 st,
       verify req env w = (Ok true, w1) /\ nullish (body req) = false /\
       nullish (get_opt (body req) "data") = false /\
       (is_string (get_opt (body req) "event") "charge.success" = true /\ st = "paid" \/
        is_string (get_opt (body req) "event") "charge.failed" = true /\ st = "failed")).
Proof.
  destruct (verify req env w) as [[[|]|e] w1] eqn:Hv.
  - (* verified *)
    destruct (nullish (body req)) eqn:Hb.
    + destruct (get_prop_nullish _ "event" env w1 Hb) as [m Hm].
      destruct (verify_frame _ _ _ _ _ Hv) as (Hp & Ha & Ht).
      do 2 eexists. split.
      * unfold Main.paystack_webhook, try_catch. unfold bind at 1. rewrite Hv.
        cbn [negb]. unfold bind at 1. rewrite Hm. reflexivity.
      * left. cbn. rewrite store_calls_app. cbn. rewrite app_nil_r. auto.
    + pose proof (webhook_run req env w w1 Hv Hb) as Hrun. cbn zeta in Hrun.
      destruct (receipt_frame _ _ _ _ Hv) as (Hp & Ha & Ht). cbn zeta in Hp, Ha, Ht.
      set (w2 := after w1 (payments w1) (appointments w1)
                   [ConsoleLog "Paystack webhook received"]) in *.
      assert (Hfail : exists w',
                 answer (Throw (TypeError EmptyString), w2) = (Ok processing_failed, w') /\
                 payments w' = payments w /\ appointments w' = appointments w /\
                 store_calls (trace w') = store_calls (trace w)).
      { eexists. split; [reflexivity|]. cbn [after payments appointments trace].
        rewrite store_calls_app. cbn [store_calls filter is_store_call].
        rewrite app_nil_r. auto. }
      destruct Hfail as (wf & Hwf & Hfail).
      destruct (is_string (get_opt (body req) "event") "charge.success") eqn:Hs;
        [|destruct (is_string (get_opt (body req) "event") "charge.failed") eqn:Hf];
        try (destruct (nullish (get_opt (body req) "data")) eqn:Hd;
             [exists processing_failed, wf; rewrite Hrun, Hwf; auto|]).
      * destruct (webhook_reconciles req env w w1 "paid" Hv Hb Hd
                    (or_introl (conj Hs eq_refl)))
          as (appt & r & w' & rest & Hr & _).
        do 2 eexists. split; [exact Hr|]. right. exists w1, "paid". auto 8.
      * destruct (webhook_reconciles req env w w1 "failed" Hv Hb Hd
                    (or_intror (conj Hf eq_refl)))
          as (appt & r & w' & rest & Hr & _).
        do 2 eexists. split; [exact Hr|]. right. exists w1, "failed". auto 8.
      * do 2 eexists. split; [exact Hrun|]. auto.
  - (* rejected *)
    do 2 eexists. split; [apply (webhook_rejects _ _ _ _ Hv)|].
    left. cbn. rewrite store_calls_app. cbn. rewrite app_nil_r. auto.
  - (* the verifier threw *)
    destruct (verify_frame _ _ _ _ _ Hv) as (Hp & Ha & Ht).
    do 2 eexists. split.
    + unfold Main.paystack_webhook, try_catch. unfold bind at 1. rewrite Hv. reflexivity.
    + left. cbn. rewrite store_calls_app. cbn. rewrite app_nil_r. auto.
Qed.

(** C10. In both files reconciliation writes nothing of a payment but
    [status], and that only on rows whose [ref] is the text of the event's
    reference. In the first file a [charge.failed] event neither changes nor
    calls the appointments table. In part_000 a [charge.failed] event leaves
    the appointments table alone when its [data.status] is not [success]; an
    event whose [data.status] is [success], a [charge.failed] one too, does
    write to the appointments table when its metadata carry a truthy
    [appointment_id] and the payment update did not throw. *)
Theorem reconciliation_frame (req : request) (env : environment) (w : world) :
  let type := get_opt (body req) "event" in
  let d := get_opt (body req) "data" in
  let reference := get_opt d "reference" in
  let appointment_id := get_opt (get_opt d "metadata") "appointment_id" in
  (exists resp w',
     webhook req env w = (Ok resp, w') /\
     Forall2 (status_written_on reference) (payments w) (payments w') /\
     (is_string type "charge.failed" = true ->
      appointments w' = appointments w /\
      appointment_writes (trace w') = appointment_writes (trace w)))
  /\
  (exists w',
     Alt.paystack_webhook req env w = (Ok acknowledged, w') /\
     Forall2 (status_written_on reference) (payments w) (payments w') /\
     (is_string type "charge.failed" = true ->
      is_string (get_opt d "status") "success" = false ->
      appointments w' = appointments w /\
      appointment_writes (trace w') = appointment_writes (trace w)) /\
     (is_string (get_opt d "status") "success" = true ->
      truthy appointment_id = true ->
      (forall m, on_update_payments env <> Rejects m) ->
      appointments w' =
        appointments_after (on_update_appointments env) "confirmed" appointment_id
          (appointments w) /\
      appointment_writes (trace w') =
        appointment_writes (trace w) ++
        [AppointmentsUpdate "confirmed" appointment_id (on_update_appointments env)])).
Proof.
  intros type d reference appointment_id. split.
  - destruct (webhook_total req env w) as (resp & w' & Hrun & Hcases).
    destruct Hcases as [(Hp & Ha & Ht)|(w1 & st & Hv & Hb & Hd & Hcase)].
    + exists resp, w'. split; [exact Hrun|]. split.
      * rewrite Hp. apply status_written_on_refl.
      * intros _. split; [exact Ha|].
        rewrite (appointment_writes_store_calls (trace w')), Ht.
        symmetry. apply appointment_writes_store_calls.
    + destruct (webhook_reconciles req env w w1 st Hv Hb Hd Hcase)
        as (appt & r & w'' & rest & Hrun' & _ & Hp & Hc & Hrest & _).
      rewrite Hrun in Hrun'. injection Hrun' as -> ->.
      do 2 eexists. split; [exact Hrun|]. split.
      * rewrite Hp. apply status_written_on_after.
      * intros Hf.
        assert (Hst : st = "failed").
        { destruct Hcase as [[Hs _]|[_ Hst]]; [|exact Hst].
          pose proof (is_string_inj _ _ _ Hs Hf). discriminate. }
        destruct Hrest as [(-> & Ha & _)|(_ & Hpaid & _)]; [|congruence].
        split; [exact Ha|].
        rewrite (appointment_writes_store_calls (trace w'')), Hc.
        unfold appointment_writes at 1. rewrite filter_app. cbn. rewrite app_nil_r.
        symmetry. apply appointment_writes_store_calls.
  - destruct (alt_webhook_effects req env w) as (w' & Hrun & Heff). cbn zeta in Heff.
    fold type d reference appointment_id in Heff.
    exists w'. split; [exact Hrun|].
    destruct (is_string type "charge.success") eqn:Hs;
      destruct (is_string (get_opt d "status") "success") eqn:Hst; cbn [orb] in Heff.
    4: { destruct Heff as (Hp & Ha & Hc). split; [|split].
         - rewrite Hp. apply status_written_on_refl.
         - intros _ _. split; [exact Ha|].
           rewrite (appointment_writes_store_calls (trace w')), Hc.
           symmetry. apply appointment_writes_store_calls.
         - discriminate. }
    all: destruct Heff as (Hp & rest & Hc & Hrest);
      (split; [rewrite Hp; apply status_written_on_after|]); split.
    all: try (intros Hf; pose proof (is_string_inj _ _ _ Hs Hf); discriminate).
    all: try (intros _ Hno; discriminate Hno).
    all: try discriminate.
    all: intros _ Hid Hthrows;
      destruct Hrest as [(_ & _ & [Hnone|[m Hm]])|(-> & _ & _ & Ha)];
      [congruence|exfalso; exact (Hthrows m Hm)|];
      (split; [exact Ha|]);
      rewrite (appointment_writes_store_calls (trace w')), Hc;
      unfold appointment_writes at 1; rewrite filter_app; cbn;
      rewrite <- appointment_writes_store_calls; reflexivity.
Qed.

(** *** Initiation *)

Lemma createPaymentRecord_run (appointment_id amount_ngn : value) (ref : string)
    (env : environment) (w : world) :
  let call := PaymentsInsert appointment_id amount_ngn "paystack" "initiated" ref
                (on_insert_payment env) in
  let row := initiated_row w appointment_id amount_ngn ref in
  Main.createPaymentRecord appointment_id amount_ngn "paystack" ref env w =
  match on_insert_payment env with
  | Succeeds =>
      (Ok (Some row), after w (payments w ++ [row]) (appointments w) [call])
  | ReturnsError m =>
      (Throw (DatabaseError ("Failed to create payment record: " ++ m)%string),
       after w (payments w) (appointments w) [call])
  | Rejects m =>
      (Throw (DatabaseError "Unexpected database error occurred"),
       after w (payments w) (appointments w) [call])
  end.
Proof.
  unfold Main.createPaymentRecord, try_catch, bind, payments_insert.
  destruct (on_insert_payment env); reflexivity.
Qed.

Lemma valid_body_readable (b : value) (key : string) :
  truthy (get_opt b key) = true -> nullish b = false.
Proof. destruct b; cbn; intros H; try discriminate; reflexivity. Qed.


(** What [next] does. *)
Lemma next_run (e : js_error) (env : environment) (w : world) :
  next e env w =
    (Ok {| status_code := match statusCode e with Some c => c | None => 500%Z end;
           sent := ErrorReport e |},
     after w (payments w) (appointments w) [ConsoleError (message_of e)]).
Proof. reflexivity. Qed.

(** A valid initiation request, once its row is stored: the gateway is
    called, and what is left is run on its reply. *)
Lemma init_inserted (req : request) (env : environment) (w : world) :
  let appointment_id := get_opt (body req) "appointment_id" in
  let amount_ngn := get_opt (body req) "amount_ngn" in
  let ref := ("ps_ref_" ++ uuid env)%string in
  let row := initiated_row w appointment_id amount_ngn ref in
  let call := GatewayInitialize (times_100 amount_ngn)
                (js_or (get_opt (body req) "patient_email") (VStr "customer@example.com"))
                ref appointment_id (on_gateway env) in
  let wi := after w (payments w ++ [row]) (appointments w)
              [PaymentsInsert appointment_id amount_ngn "paystack" "initiated" ref Succeeds;
               call] in
  truthy appointment_id = true ->
  truthy amount_ngn = true ->
  on_insert_payment env = Succeeds ->
  init req env w =
  match on_gateway env with
  | FetchRejects m => next (Rejected m) env wi
  | Replies json =>
      try_catch
        (ok <- get_prop json "status" ;;
         if negb (truthy ok) then
           Main.updatePaymentStatus (VStr ref) "failed" VUndefined ;;
           message <- get_prop json "message" ;;
           throw (PaymentError ("Paystack initialization failed: " ++
                                js_text (js_or message (VStr "Unknown error")))%string)
         else
           d <- get_prop json "data" ;;
           authorization_url <- get_prop d "authorization_url" ;;
           access_code <- get_prop d "access_code" ;;
           ret {| status_code := 200;
                  sent := Json (VObj [("authorization_url", authorization_url);
                                      ("access_code", access_code);
                                      ("reference", VStr ref)]) |})
        next env wi
  end.
Proof.
  intros appointment_id amount_ngn ref row call wi Ha Hm Hi.
  pose proof (valid_body_readable _ _ Ha) as Hb.
  unfold Main.paystack_init.
  rewrite !(get_prop_defined _ _ Hb).
  unfold try_catch. unfold bind at 1. cbv [ret]. unfold bind at 1. unfold bind at 1.
  fold appointment_id amount_ngn. rewrite Ha, Hm. cbn [negb orb].
  unfold bind at 1. cbv [ask]. unfold bind at 1.
  rewrite createPaymentRecord_run. cbn zeta. rewrite Hi.
  unfold bind at 1. unfold gateway_initialize.
  subst wi call. unfold after. cbn [payments appointments trace].
  rewrite <- app_assoc. cbn [app].
  destruct (on_gateway env) as [json|m]; reflexivity.
Qed.

Lemma init_not_inserted (req : request) (env : environment) (w : world) :
  let appointment_id := get_opt (body req) "appointment_id" in
  let amount_ngn := get_opt (body req) "amount_ngn" in
  let ref := ("ps_ref_" ++ uuid env)%string in
  truthy appointment_id = true ->
  truthy amount_ngn = true ->
  on_insert_payment env <> Succeeds ->
  exists e,
    init req env w =
      next (DatabaseError e) env
        (after w (payments w) (appointments w)
           [PaymentsInsert appointment_id amount_ngn "paystack" "initiated" ref
              (on_insert_payment env)]).
Proof.
  intros appointment_id amount_ngn ref Ha Hm Hi.
  pose proof (valid_body_readable _ _ Ha) as Hb.
  unfold Main.paystack_init.
  rewrite !(get_prop_defined _ _ Hb).
  unfold try_catch. unfold bind at 1. cbv [ret]. unfold bind at 1. unfold bind at 1.
  fold appointment_id amount_ngn. rewrite Ha, Hm. cbn [negb orb].
  unfold bind at 1. cbv [ask]. unfold bind at 1.
  rewrite createPaymentRecord_run. cbn zeta.
  destruct (on_insert_payment env); [contradiction| |]; eexists; reflexivity.
Qed.

(** C2. For a valid initiation request the first thing the handler does
    to the outside is the insert of a payment row with status [initiated];
    the gateway is called only after that insert, only once, and only when
    the store has applied it; when the insert fails, the gateway is not called
    at all. *)
Theorem payment_insert_precedes_gateway_call (req : request) (env : environment)
    (w : world) :
  let appointment_id := get_opt (body req) "appointment_id" in
  let amount_ngn := get_opt (body req) "amount_ngn" in
  let ref := ("ps_ref_" ++ uuid env)%string in
  let insert := PaymentsInsert appointment_id amount_ngn "paystack" "initiated" ref
                  (on_insert_payment env) in
  truthy appointment_id = true ->
  truthy amount_ngn = true ->
  exists resp w' rest,
    init req env w = (Ok resp, w') /\
    trace w' = trace w ++ insert :: rest /\
    match on_insert_payment env with
    | Succeeds =>
        exists email rest',
          rest = GatewayInitialize (times_100 amount_ngn) email ref appointment_id
                   (on_gateway env) :: rest' /\
          Forall (fun e => is_gateway_call e = false) rest' /\
          Forall2 (status_written_on (VStr ref))
            (payments w ++ [initiated_row w appointment_id amount_ngn ref])
            (payments w')
    | _ =>
        Forall (fun e => is_gateway_call e = false) rest /\ payments w' = payments w
    end.
Proof.
  intros appointment_id amount_ngn ref insert Ha Hm.
  destruct (on_insert_payment env) eqn:Hi.
  - pose proof (init_inserted req env w Ha Hm Hi) as Hrun. cbn zeta in Hrun.
    fold appointment_id amount_ngn ref in Hrun.
    set (row := initiated_row w appointment_id amount_ngn ref) in *.
    set (email := js_or _ _) in Hrun.
    set (wi := after w _ _ _) in Hrun.
    assert (Hgoal : exists resp w' rest',
               init req env w = (Ok resp, w') /\
               trace w' = trace wi ++ rest' /\
               Forall (fun e => is_gateway_call e = false) rest' /\
               Forall2 (status_written_on (VStr ref)) (payments wi) (payments w')).
    { rewrite Hrun. clear Hrun.
      assert (Hstay : forall resp : response, exists resp' w' rest',
                 (Ok resp, wi) = (Ok resp', w') /\
                 trace w' = trace wi ++ rest' /\
                 Forall (fun e => is_gateway_call e = false) rest' /\
                 Forall2 (status_written_on (VStr ref)) (payments wi) (payments w')).
      { intros resp. exists resp, wi, []. rewrite app_nil_r.
        auto using status_written_on_refl. }
      assert (Hnext : forall e : js_error, exists resp' w' rest',
                 next e env wi = (Ok resp', w') /\
                 trace w' = trace wi ++ rest' /\
                 Forall (fun e => is_gateway_call e = false) rest' /\
                 Forall2 (status_written_on (VStr ref)) (payments wi) (payments w')).
      { intros e. rewrite next_run. do 3 eexists. split; [reflexivity|].
        cbn [after payments trace]. split; [reflexivity|].
        split; [repeat constructor|apply status_written_on_refl]. }
      destruct (on_gateway env) as [json|m]; [|apply Hnext].
      unfold try_catch. unfold bind at 1.
      destruct (nullish json) eqn:Hj.
      { destruct (get_prop_nullish _ "status" env wi Hj) as [m ->]. apply Hnext. }
      rewrite (get_prop_defined _ "status" Hj). cbv [ret].
      destruct (truthy (get_opt json "status")); cbn [negb].
      - unfold bind at 1. rewrite (get_prop_defined _ "data" Hj). cbv [ret].
        destruct (nullish (get_opt json "data")) eqn:Hd.
        + unfold bind at 1.
          destruct (get_prop_nullish _ "authorization_url" env wi Hd) as [m ->].
          apply Hnext.
        + unfold bind.
          rewrite (get_prop_defined _ "authorization_url" Hd),
            (get_prop_defined _ "access_code" Hd).
          apply Hstay.
      - unfold bind at 1. rewrite updatePaymentStatus_run. cbn zeta.
        change ("failed" =? "paid") with false. cbn [andb].
        rewrite (get_prop_defined _ "message" Hj).
        destruct (on_update_payments env) eqn:Ho; cbv [bind ret throw];
          rewrite next_run;
          do 3 eexists;
          (split; [reflexivity|]); cbn [after payments appointments trace];
          rewrite <- ?app_assoc;
          (split; [reflexivity|]); (split; [repeat constructor|]);
          auto using status_written_on_refl, status_written_on_update. }
    destruct Hgoal as (resp & w' & rest' & Hrun' & Ht & Hg & Hp).
    exists resp, w', (GatewayInitialize (times_100 amount_ngn) email ref appointment_id
                        (on_gateway env) :: rest').
    split; [exact Hrun'|]. split.
    + rewrite Ht. subst wi. cbn [after trace]. rewrite <- app_assoc. reflexivity.
    + exists email, rest'. auto.
  - destruct (init_not_inserted req env w Ha Hm) as [e Hrun];
      [rewrite Hi; discriminate|].
    rewrite Hi, next_run in Hrun. do 3 eexists. split; [exact Hrun|].
    cbn [after payments trace]. rewrite <- app_assoc.
    split; [reflexivity|]. split; [repeat constructor|reflexivity].
  - destruct (init_not_inserted req env w Ha Hm) as [e Hrun];
      [rewrite Hi; discriminate|].
    rewrite Hi, next_run in Hrun. do 3 eexists. split; [exact Hrun|].
    cbn [after payments trace]. rewrite <- app_assoc.
    split; [reflexivity|]. split; [repeat constructor|reflexivity].
Qed.

(** C6, as the code has it. When the gateway reports failure, the
    Initiator updates the payments carrying the fresh reference to [failed];
    when the store applies that update, the row just created is [failed] and a
    PaymentError (400) is reported; when the update fails, the row stays
    [initiated] and the DatabaseError of the update (500) is reported. *)
Theorem gateway_failure_reported (req : request) (env : environment) (w : world)
    (json : value) :
  let appointment_id := get_opt (body req) "appointment_id" in
  let amount_ngn := get_opt (body req) "amount_ngn" in
  let ref := ("ps_ref_" ++ uuid env)%string in
  let row := initiated_row w appointment_id amount_ngn ref in
  truthy appointment_id = true ->
  truthy amount_ngn = true ->
  on_insert_payment env = Succeeds ->
  on_gateway env = Replies json ->
  nullish json = false ->
  truthy (get_opt json "status") = false ->
  exists resp w',
    init req env w = (Ok resp, w') /\
    match on_update_payments env with
    | Succeeds =>
        (exists m, resp = {| status_code := 400; sent := ErrorReport (PaymentError m) |}) /\
        payments w' = map (update_payment "failed" (VStr ref)) (payments w ++ [row]) /\
        In (set_status "failed" row) (payments w')
    | ReturnsError m =>
        resp = {| status_code := 500;
                  sent := ErrorReport
                    (DatabaseError ("Failed to update payment status: " ++ m)%string) |} /\
        payments w' = payments w ++ [row]
    | Rejects _ =>
        resp = {| status_code := 500;
                  sent := ErrorReport
                    (DatabaseError "Unexpected error updating payment status") |} /\
        payments w' = payments w ++ [row]
    end.
Proof.
  intros appointment_id amount_ngn ref row Ha Hm Hi Hg Hj Hs.
  pose proof (init_inserted req env w Ha Hm Hi) as Hrun. cbn zeta in Hrun.
  fold appointment_id amount_ngn ref in Hrun. fold row in Hrun.
  rewrite Hg in Hrun. rewrite Hrun. clear Hrun.
  unfold try_catch. unfold bind at 1.
  rewrite (get_prop_defined _ "status" Hj). cbv [ret]. rewrite Hs. cbn [negb].
  unfold bind at 1. rewrite updatePaymentStatus_run. cbn zeta.
  change ("failed" =? "paid") with false. cbn [andb].
  rewrite (get_prop_defined _ "message" Hj).
  destruct (on_update_payments env) eqn:Ho; cbv [bind ret throw next];
    cbn [statusCode]; do 2 eexists; (split; [reflexivity|]);
    cbn [after payments appointments trace]; auto.
  split; [eauto|]. split; [reflexivity|].
  rewrite map_app. apply in_or_app. right. apply in_map_iff. exists row.
  split; [apply update_payment_matching; reflexivity|apply in_eq].
Qed.

(** *** The answer of the webhook does not depend on the tables *)

Lemma verify_answer_independent (req : request) (env env' : environment) (w w0 : world) :
  fst (verify req env w) = fst (verify req env' w0).
Proof.
  unfold Main.verifyPaystackSignature.
  destruct secret_in_use; [destruct (body req)|]; reflexivity.
Qed.

Lemma updatePaymentStatus_answer_independent (reference : value) (st : string)
    (appt : value) (env : environment) (w w0 : world) :
  returned (fst (Main.updatePaymentStatus reference st appt env w)) =
  returned (fst (Main.updatePaymentStatus reference st appt env w0)).
Proof.
  rewrite !updatePaymentStatus_run. cbn zeta.
  destruct (on_update_payments env); try reflexivity.
  destruct ((st =? "paid") && truthy (default_null appt)); try reflexivity.
  destruct (on_update_appointments env); reflexivity.
Qed.

Lemma answer_returned (x : result bool * world) :
  fst (answer x) = Ok (if returned (fst x) then acknowledged else processing_failed).
Proof. destruct x as [[b|e] w]; reflexivity. Qed.

Lemma webhook_unreadable_body (req : request) (env : environment) (w w1 : world) :
  verify req env w = (Ok true, w1) ->
  nullish (body req) = true ->
  fst (webhook req env w) = Ok processing_failed.
Proof.
  intros Hv Hb. destruct (get_prop_nullish _ "event" env w1 Hb) as [m Hm].
  unfold Main.paystack_webhook, try_catch. unfold bind at 1. rewrite Hv.
  cbn [negb]. unfold bind at 1. rewrite Hm. reflexivity.
Qed.

Lemma webhook_verifier_throws (req : request) (env : environment) (w w1 : world)
    (e : js_error) :
  verify req env w = (Throw e, w1) ->
  fst (webhook req env w) = Ok processing_failed.
Proof.
  intros Hv. unfold Main.paystack_webhook, try_catch. unfold bind at 1. rewrite Hv.
  reflexivity.
Qed.

Lemma webhook_answer_independent (req : request) (env : environment) (w w0 : world) :
  fst (webhook req env w) = fst (webhook req env w0).
Proof.
  pose proof (verify_answer_independent req env env w w0) as Hfst.
  destruct (verify req env w) as [[[|]|e] w1] eqn:Hv;
    destruct (verify req env w0) as [r0 w1'] eqn:Hv0; cbn [fst] in Hfst; subst r0.
  - destruct (nullish (body req)) eqn:Hb.
    + rewrite (webhook_unreadable_body _ _ _ _ Hv Hb),
        (webhook_unreadable_body _ _ _ _ Hv0 Hb). reflexivity.
    + rewrite (webhook_run req env w w1 Hv Hb), (webhook_run req env w0 w1' Hv0 Hb).
      cbn zeta.
      destruct (is_string (get_opt (body req) "event") "charge.success");
        [|destruct (is_string (get_opt (body req) "event") "charge.failed")];
        try reflexivity;
        (destruct (nullish (get_opt (body req) "data")); [reflexivity|]);
        rewrite !answer_returned;
        erewrite updatePaymentStatus_answer_independent; reflexivity.
  - rewrite (webhook_rejects _ _ _ _ Hv), (webhook_rejects _ _ _ _ Hv0). reflexivity.
  - rewrite (webhook_verifier_throws _ _ _ _ _ Hv),
      (webhook_verifier_throws _ _ _ _ _ Hv0). reflexivity.
Qed.

(** C7. Re-delivery is idempotent: after a verified [charge.success] or
    [charge.failed] event whose payment update was applied, delivering the
    same event again leaves the payments exactly as the first delivery left
    them, whatever the store answers the second time; it is answered 200 when
    the store serves the second delivery; and it leaves the appointments as
    they were when the first delivery's appointment update was applied.  The
    second delivery gets the answer it would have got as a first one. *)
Theorem redelivery_idempotent (req : request) (env1 env2 : environment)
    (w w1 : world) :
  verify req env1 w = (Ok true, w1) ->
  nullish (body req) = false ->
  let type := get_opt (body req) "event" in
  let d := get_opt (body req) "data" in
  nullish d = false ->
  is_string type "charge.success" = true \/ is_string type "charge.failed" = true ->
  on_update_payments env1 = Succeeds ->
  exists resp1 once resp2 twice,
    webhook req env1 w = (Ok resp1, once) /\
    webhook req env2 once = (Ok resp2, twice) /\
    payments twice = payments once /\
    (on_update_payments env2 = Succeeds ->
     (forall m, on_update_appointments env2 <> Rejects m) ->
     resp2 = acknowledged) /\
    (on_update_appointments env1 = Succeeds -> appointments twice = appointments once) /\
    Ok resp2 = fst (webhook req env2 w).
Proof.
  intros Hv Hb type d Hd Ht Ho1.
  assert (Hcase : exists st,
             is_string type "charge.success" = true /\ st = "paid" \/
             is_string type "charge.failed" = true /\ st = "failed").
  { destruct Ht as [Ht|Ht]; [exists "paid"|exists "failed"]; auto. }
  destruct Hcase as [st Hcase].
  destruct (webhook_reconciles req env1 w w1 st Hv Hb Hd Hcase)
    as (appt & r1 & once & rest1 & Hrun1 & Happt & Hp1 & _ & Hrest1 & _).
  destruct (verify_deterministic req env1 env2 w w1 once Hv) as [w1' Hv'].
  destruct (webhook_reconciles req env2 once w1' st Hv' Hb Hd Hcase)
    as (appt' & r2 & twice & rest2 & Hrun2 & Happt' & Hp2 & _ & Hrest2 & Hret2).
  exists (if returned r1 then acknowledged else processing_failed), once,
         (if returned r2 then acknowledged else processing_failed), twice.
  do 2 (split; [assumption|]).
  rewrite Ho1 in Hp1. cbn in Hp1. split; [|split; [|split]].
  - rewrite Hp2, Hp1. apply payments_after_idem.
  - intros Ho2 Ha2. destruct (returned r2); [reflexivity|].
    destruct Hret2 as [_ Hret2]. discriminate Hret2. auto.
  - intros Ha1. subst appt appt'.
    destruct Hrest2 as [(_ & H & _)|(_ & Hst & Htr & _ & H2)]; [exact H|].
    rewrite H2.
    destruct Hrest1 as [(_ & _ & Hno)|(_ & _ & _ & _ & H1)].
    + specialize (Hno Ho1). rewrite Hst in Hno, Htr. rewrite Htr in Hno.
      cbn in Hno. discriminate.
    + rewrite H1, Ha1. destruct (on_update_appointments env2); cbn; try reflexivity.
      rewrite map_map. apply map_ext. intros a. apply update_appointment_idem.
  - rewrite (webhook_answer_independent req env2 w once), Hrun2. reflexivity.
Qed.

End MainProperties.

(** ** Properties of src/unnamed/part_000

    This iteration verifies no signature, handles no [charge.failed] and
    marks no payment [failed]; the lemmas record where it differs from the
    first file. *)

Section AltProperties.

Variable times_100 : value -> value.

(** X25. The webhook answers 200 whatever the request and whatever the
    store does. *)
Lemma alt_webhook_always_acknowledged (req : request) (env : environment) (w : world) :
  fst (Alt.paystack_webhook req env w) = Ok acknowledged.
Proof.
  unfold Alt.paystack_webhook. unfold bind at 1. cbv [console_log emit].
  unfold bind at 1.
  destruct (is_string (get_opt (body req) "event") "charge.success"
            || is_string (get_opt (get_opt (body req) "data") "status") "success");
    [|reflexivity].
  unfold try_catch, bind, payments_update, appointments_update, console_error, emit, ret.
  destruct (on_update_payments env); cbn; try reflexivity;
    destruct (truthy _); cbn; try reflexivity;
    destruct (on_update_appointments env); reflexivity.
Qed.

(** X26. An event that is neither a [charge.success] nor carries
    [data.status === 'success'], a [charge.failed] for one, reaches no
    store. *)
Lemma alt_other_events_ignored (req : request) (env : environment) (w : world) :
  is_string (get_opt (body req) "event") "charge.success" = false ->
  is_string (get_opt (get_opt (body req) "data") "status") "success" = false ->
  Alt.paystack_webhook req env w =
    (Ok acknowledged,
     after w (payments w) (appointments w) [ConsoleLog "Paystack webhook received"]).
Proof.
  intros Hs Hd. unfold Alt.paystack_webhook. unfold bind at 1. cbv [console_log emit].
  unfold bind at 1. rewrite Hs, Hd. reflexivity.
Qed.

(** X27. The payment update has target status [paid] also for an event of
    another type, when its [data.status] is [success]. *)
Lemma alt_data_status_triggers_paid (req : request) (env : environment) (w : world) :
  is_string (get_opt (get_opt (body req) "data") "status") "success" = true ->
  exists w' rest,
    Alt.paystack_webhook req env w = (Ok acknowledged, w') /\
    store_calls (trace w') =
      store_calls (trace w) ++
      PaymentsUpdate "paid" (get_opt (get_opt (body req) "data") "reference")
        (on_update_payments env) :: rest /\
    payments w' =
      payments_after (on_update_payments env) "paid"
        (get_opt (get_opt (body req) "data") "reference") (payments w).
Proof.
  intros Hd. unfold Alt.paystack_webhook. unfold bind at 1. cbv [console_log emit].
  unfold bind at 1. rewrite Hd, orb_true_r.
  unfold try_catch, bind, payments_update, appointments_update, console_error, emit, ret.
  cbn [payments appointments trace].
  destruct (on_update_payments env); cbn [error payments appointments trace];
    try destruct (truthy _); cbn [payments appointments trace];
    try destruct (on_update_appointments env); cbn [payments appointments trace];
    do 2 eexists; (split; [reflexivity|]);
    cbn [payments appointments trace payments_after];
    rewrite <- ?app_assoc; rewrite !store_calls_app; cbn [app];
    (split; [|reflexivity]); cbn; rewrite ?app_nil_r; reflexivity.
Qed.


End AltProperties.

(** ** Concrete runs of the payment handlers *)

Section MainRuns.

Local Abbreviation verify :=
  (Main.verifyPaystackSignature Sample.hmac Sample.stringify).
Local Abbreviation webhook :=
  (Main.paystack_webhook Sample.hmac Sample.stringify Sample.secret).
Local Abbreviation init := (Main.paystack_init Sample.times_100 Sample.text).
Local Abbreviation success := (Sample.event "charge.success" "ps_ref_X" (VStr "A1")).
Local Abbreviation failure := (Sample.event "charge.failed" "ps_ref_X" (VStr "A1")).
Local Abbreviation refund := (Sample.event "refund.processed" "ps_ref_X" (VStr "A1")).
Local Abbreviation pending := (Sample.store Sample.initiated_row).
Local Abbreviation settled := (Sample.store Sample.paid_row).
(** A [charge.failed] event whose data say [success]. *)
Local Abbreviation failed_but_successful :=
  (Sample.with_status "charge.failed" "success" "ps_ref_X" (VStr "A1")).
(** An event of a type no handler names, whose data say [success]. *)
Local Abbreviation refund_with_success :=
  (Sample.with_status "refund.processed" "success" "ps_ref_X" (VStr "A1")).
(** The store answers the payment update with an error. *)
Local Abbreviation store_down :=
  (Sample.with_update_payments (ReturnsError "timeout") Sample.healthy).
(** The store answers the appointment update with an error. *)
Local Abbreviation appointments_error :=
  (Sample.with_update_appointments (ReturnsError "timeout") Sample.healthy).
(** The gateway declines. *)
Local Abbreviation gateway_declines :=
  (Sample.with_gateway (Replies Sample.declined) Sample.healthy).

Lemma verifyPaystackSignature_policy_witness :
  verify None (Sample.forged success) Sample.healthy pending =
    (Ok true,
     after pending (payments pending) (appointments pending)
       [ConsoleWarn
          "Paystack webhook secret not configured, skipping signature verification"])
  /\
  exists b, verify Sample.secret (Sample.signed success) Sample.healthy pending
            = (Ok b, pending) /\
    (b = true <->
     header "x-paystack-signature" (headers (Sample.signed success)) =
       Some (Sample.hmac "whsec_test" (Sample.stringify success))).
Proof.
  split.
  - destruct (verifyPaystackSignature_policy Sample.hmac Sample.stringify None
                (Sample.forged success) Sample.healthy pending) as [H _].
    apply H. reflexivity.
  - destruct (verifyPaystackSignature_policy Sample.hmac Sample.stringify Sample.secret
                (Sample.signed success) Sample.healthy pending) as [_ H].
    apply (H "whsec_test"); [reflexivity|discriminate].
Defined.

Lemma invalid_signature_rejected_witness :
  (exists w',
     webhook (Sample.forged success) Sample.healthy pending = (Ok unauthorized, w') /\
     payments w' = payments pending /\ appointments w' = appointments pending /\
     store_calls (trace w') = [] /\
     trace w' = [ConsoleError "Invalid webhook signature"])
  /\
  (forall hs,
     Main.paystack_webhook Sample.hmac Sample.stringify None
       {| body := success; headers := hs |} Sample.healthy pending =
     Main.paystack_webhook Sample.hmac Sample.stringify None
       (Sample.forged success) Sample.healthy pending).
Proof.
  split.
  - destruct (invalid_signature_rejected Sample.hmac Sample.stringify Sample.secret
                (Sample.forged success) Sample.healthy pending) as (H & _ & _).
    apply (H "whsec_test"); [reflexivity|discriminate|discriminate].
  - destruct (invalid_signature_rejected Sample.hmac Sample.stringify None
                (Sample.forged success) Sample.healthy pending) as (_ & H & _).
    apply H. reflexivity.
Defined.

Lemma event_type_determines_action_witness :
  (exists resp w' rest,
     webhook (Sample.signed success) Sample.healthy pending = (Ok resp, w') /\
     store_calls (trace w') =
       PaymentsUpdate "paid" (VStr "ps_ref_X") Succeeds :: rest /\
     Forall (fun e => is_appointments_write e = true) rest /\
     payments w' = [set_status "paid" Sample.initiated_row])
  /\
  (exists resp w',
     webhook (Sample.signed failure) Sample.healthy pending = (Ok resp, w') /\
     store_calls (trace w') = [PaymentsUpdate "failed" (VStr "ps_ref_X") Succeeds] /\
     payments w' = [set_status "failed" Sample.initiated_row] /\
     appointments w' = appointments pending)
  /\
  (exists w',
     webhook (Sample.signed refund) Sample.healthy pending = (Ok acknowledged, w') /\
     store_calls (trace w') = [] /\
     payments w' = payments pending /\ appointments w' = appointments pending)
  /\
  (exists w' rest,
     Alt.paystack_webhook (Sample.signed success) Sample.healthy pending =
       (Ok acknowledged, w') /\
     store_calls (trace w') =
       PaymentsUpdate "paid" (VStr "ps_ref_X") Succeeds :: rest /\
     Forall (fun e => is_appointments_write e = true) rest /\
     payments w' = [set_status "paid" Sample.initiated_row])
  /\
  (exists w',
     Alt.paystack_webhook (Sample.signed failure) Sample.healthy pending =
       (Ok acknowledged, w') /\
     store_calls (trace w') = [] /\
     payments w' = payments pending /\ appointments w' = appointments pending).
Proof.
  split; [|split; [|split; [|split]]].
  - destruct (event_type_determines_action Sample.hmac Sample.stringify Sample.secret
                (Sample.signed success) Sample.healthy pending pending) as (H & _ & _).
    destruct (H eq_refl eq_refl) as (H1 & _ & _). exact (H1 eq_refl eq_refl).
  - destruct (event_type_determines_action Sample.hmac Sample.stringify Sample.secret
                (Sample.signed failure) Sample.healthy pending pending) as (H & _ & _).
    destruct (H eq_refl eq_refl) as (_ & H2 & _). exact (H2 eq_refl eq_refl).
  - destruct (event_type_determines_action Sample.hmac Sample.stringify Sample.secret
                (Sample.signed refund) Sample.healthy pending pending) as (H & _ & _).
    destruct (H eq_refl eq_refl) as (_ & _ & H3). exact (H3 eq_refl eq_refl).
  - destruct (event_type_determines_action Sample.hmac Sample.stringify Sample.secret
                (Sample.signed success) Sample.healthy pending pending) as (_ & H & _).
    exact (H (or_introl eq_refl)).
  - destruct (event_type_determines_action Sample.hmac Sample.stringify Sample.secret
                (Sample.signed failure) Sample.healthy pending pending) as (_ & _ & H).
    exact (H eq_refl eq_refl).
Defined.

Lemma charge_failed_overwrites_paid_witness :
  exists resp w',
    webhook (Sample.signed failure) Sample.healthy settled = (Ok resp, w') /\
    (Succeeds = Succeeds ->
     In (set_status "failed" Sample.paid_row) (payments w') /\
     forall p', In p' (payments w') -> pay_ref p' = "ps_ref_X" ->
                pay_status p' = "failed") /\
    (Succeeds <> Succeeds -> payments w' = payments settled).
Proof.
  apply (charge_failed_overwrites_paid Sample.hmac Sample.stringify Sample.secret
           (Sample.signed failure) Sample.healthy settled settled
           "ps_ref_X" Sample.paid_row);
    try reflexivity.
  left. reflexivity.
Defined.

Lemma webhook_acknowledgement_witness :
  fst (webhook (Sample.signed refund) Sample.healthy pending) = Ok acknowledged /\
  fst (webhook (Sample.signed success) Sample.healthy pending) = Ok acknowledged /\
  fst (webhook (Sample.signed success) store_down pending) = Ok processing_failed.
Proof.
  split; [|split].
  - destruct (webhook_acknowledgement Sample.hmac Sample.stringify Sample.secret
                (Sample.signed refund) Sample.healthy pending pending
                eq_refl eq_refl) as [H _].
    exact (H eq_refl eq_refl).
  - destruct (webhook_acknowledgement Sample.hmac Sample.stringify Sample.secret
                (Sample.signed success) Sample.healthy pending pending
                eq_refl eq_refl) as [_ H].
    destruct (H (or_introl eq_refl) eq_refl) as [H1 _].
    apply H1; [reflexivity|]. intros m. discriminate.
  - destruct (webhook_acknowledgement Sample.hmac Sample.stringify Sample.secret
                (Sample.signed success) store_down pending pending
                eq_refl eq_refl) as [_ H].
    destruct (H (or_introl eq_refl) eq_refl) as [_ H2].
    apply H2. discriminate.
Defined.


Lemma redelivery_idempotent_witness :
  exists resp1 once resp2 twice,
    webhook (Sample.signed success) Sample.healthy pending = (Ok resp1, once) /\
    webhook (Sample.signed success) Sample.healthy once = (Ok resp2, twice) /\
    payments twice = payments once /\
    (Succeeds = Succeeds -> (forall m, Succeeds <> Rejects m) -> resp2 = acknowledged) /\
    (Succeeds = Succeeds -> appointments twice = appointments once) /\
    Ok resp2 = fst (webhook (Sample.signed success) Sample.healthy pending).
Proof.
  apply (redelivery_idempotent Sample.hmac Sample.stringify Sample.secret
           (Sample.signed success) Sample.healthy Sample.healthy pending pending);
    try reflexivity.
  left. reflexivity.
Defined.

Lemma reconciliation_frame_witness :
  (exists resp w',
     webhook (Sample.signed failure) Sample.healthy settled = (Ok resp, w') /\
     Forall2 (status_written_on (VStr "ps_ref_X")) (payments settled) (payments w') /\
     appointments w' = appointments settled /\
     appointment_writes (trace w') = appointment_writes (trace settled))
  /\
  (exists w',
     Alt.paystack_webhook (Sample.signed failure) Sample.healthy settled =
       (Ok acknowledged, w') /\
     Forall2 (status_written_on (VStr "ps_ref_X")) (payments settled) (payments w') /\
     appointments w' = appointments settled /\
     appointment_writes (trace w') = appointment_writes (trace settled))
  /\
  (exists w',
     Alt.paystack_webhook (Sample.signed failed_but_successful) Sample.healthy pending =
       (Ok acknowledged, w') /\
     appointments w' =
       map (update_appointment "confirmed" (VStr "A1")) (appointments pending) /\
     appointment_writes (trace w') =
       [AppointmentsUpdate "confirmed" (VStr "A1") Succeeds]).
Proof.
  split; [|split].
  - destruct (reconciliation_frame Sample.hmac Sample.stringify Sample.secret
                (Sample.signed failure) Sample.healthy settled)
      as [(resp & w' & Hrun & Hp & Hf) _].
    exists resp, w'. destruct (Hf eq_refl) as [Ha Ht]. auto.
  - destruct (reconciliation_frame Sample.hmac Sample.stringify Sample.secret
                (Sample.signed failure) Sample.healthy settled)
      as [_ (w' & Hrun & Hp & Hf & _)].
    exists w'. destruct (Hf eq_refl eq_refl) as [Ha Ht]. auto.
  - destruct (reconciliation_frame Sample.hmac Sample.stringify Sample.secret
                (Sample.signed failed_but_successful) Sample.healthy pending)
      as [_ (w' & Hrun & _ & _ & Hs)].
    exists w'. split; [exact Hrun|].
    apply Hs; [reflexivity|reflexivity|]. intros m. discriminate.
Defined.

Lemma payment_insert_precedes_gateway_call_witness :
  exists resp w' rest,
    init Sample.init_request Sample.healthy Sample.empty_store = (Ok resp, w') /\
    trace w' =
      PaymentsInsert (VStr "A1") (VNum 5000) "paystack" "initiated" "ps_ref_0000"
        Succeeds :: rest /\
    exists email rest',
      rest = GatewayInitialize (VNum 500000) email "ps_ref_0000" (VStr "A1")
               (on_gateway Sample.healthy) :: rest' /\
      Forall (fun e => is_gateway_call e = false) rest' /\
      Forall2 (status_written_on (VStr "ps_ref_0000"))
        [initiated_row Sample.empty_store (VStr "A1") (VNum 5000) "ps_ref_0000"]
        (payments w').
Proof.
  apply (payment_insert_precedes_gateway_call Sample.times_100 Sample.text
           Sample.init_request Sample.healthy Sample.empty_store);
    reflexivity.
Defined.

Lemma gateway_failure_reported_witness :
  exists resp w',
    init Sample.init_request gateway_declines Sample.empty_store = (Ok resp, w') /\
    (exists m, resp = {| status_code := 400; sent := ErrorReport (PaymentError m) |}) /\
    payments w' =
      [set_status "failed"
         (initiated_row Sample.empty_store (VStr "A1") (VNum 5000) "ps_ref_0000")] /\
    In (set_status "failed"
          (initiated_row Sample.empty_store (VStr "A1") (VNum 5000) "ps_ref_0000"))
       (payments w').
Proof.
  apply (gateway_failure_reported Sample.times_100 Sample.text
           Sample.init_request gateway_declines Sample.empty_store Sample.declined);
    reflexivity.
Defined.

(** *** Runs on which a property, as the specification words it, fails *)

(** C1 as stated fails: a signed [charge.failed] event for the reference
    of a [paid] payment is applied by a serving store, and the payment ends
    [failed]. *)
Lemma paid_payment_overwritten_counterexample :
  let w' := snd (webhook (Sample.signed failure) Sample.healthy settled) in
  In Sample.paid_row (payments settled) /\
  pay_status Sample.paid_row = "paid" /\
  payments w' = [set_status "failed" Sample.paid_row] /\
  ~ (forall p', In p' (payments w') -> pay_ref p' = pay_ref Sample.paid_row ->
                pay_status p' = "paid").
Proof.
  cbn zeta. split; [left; reflexivity|]. split; [reflexivity|].
  split; [reflexivity|].
  intros H. specialize (H (set_status "failed" Sample.paid_row)).
  discriminate H; [left|]; reflexivity.
Qed.

(** C3 as stated fails: the signature of the delivery passes and its body
    is read, the store answers the payment update with an error, and the
    sender gets 500. *)
Lemma failed_update_not_acknowledged_counterexample :
  verify Sample.secret (Sample.signed success) store_down pending = (Ok true, pending) /\
  exists w',
    webhook (Sample.signed success) store_down pending = (Ok processing_failed, w') /\
    payments w' = payments pending /\
    status_code processing_failed <> 200%Z.
Proof.
  split; [reflexivity|]. eexists. split; [reflexivity|].
  split; [reflexivity|discriminate].
Qed.

(** C6 as stated fails: the gateway declines, the store answers the update
    to [failed] with an error, and the caller gets the 500 of a
    DatabaseError while the payment stays [initiated]. *)
Lemma gateway_failure_without_payment_error_counterexample :
  let env := Sample.with_update_payments (ReturnsError "timeout") gateway_declines in
  exists w',
    init Sample.init_request env Sample.empty_store =
      (Ok {| status_code := 500;
             sent := ErrorReport
               (DatabaseError "Failed to update payment status: timeout") |}, w') /\
    map pay_status (payments w') = ["initiated"].
Proof. cbn zeta. eexists. split; reflexivity. Qed.

(** The stand-in tag of a text contains a slash, whatever the key. *)
Lemma sample_hmac_has_slash (key text : string) :
  has_char (Ascii.ascii_of_nat 47) (Sample.hmac key text) = true.
Proof.
  unfold Sample.hmac. induction key as [|c key IH]; [reflexivity|].
  change (Ascii.eqb c (Ascii.ascii_of_nat 47)
          || has_char (Ascii.ascii_of_nat 47) (key ++ "/" ++ text) = true).
  rewrite IH. apply orb_true_r.
Qed.

(** C4 as stated fails: a delivery whose signature header is under no
    secret the tag of its body is applied by the first file when no secret is
    configured, and by part_000 in any case; the payment ends [paid] and the
    sender gets 200. *)
Lemma forged_delivery_applied_counterexample :
  (forall key,
     header "x-paystack-signature" (headers (Sample.forged success)) <>
     Some (Sample.hmac key (Sample.stringify success))) /\
  (exists w',
     Main.paystack_webhook Sample.hmac Sample.stringify None
       (Sample.forged success) Sample.healthy pending = (Ok acknowledged, w') /\
     payments w' = [set_status "paid" Sample.initiated_row]) /\
  (exists w',
     Alt.paystack_webhook (Sample.forged success) Sample.healthy pending =
       (Ok acknowledged, w') /\
     payments w' = [set_status "paid" Sample.initiated_row]) /\
  [set_status "paid" Sample.initiated_row] <> payments pending /\
  status_code acknowledged <> 401%Z.
Proof.
  split; [|split; [|split; [|split]]].
  - intros key H.
    assert (E : "deadbeef" = Sample.hmac key (Sample.stringify success))
      by (injection H as H; exact H).
    pose proof (sample_hmac_has_slash key (Sample.stringify success)) as Hslash.
    rewrite <- E in Hslash. vm_compute in Hslash. discriminate Hslash.
  - eexists. split; reflexivity.
  - eexists. split; reflexivity.
  - discriminate.
  - discriminate.
Qed.

(** C5 as stated fails on part_000: a [charge.failed] event for an
    [initiated] payment reaches no store and the payment stays [initiated];
    and of two events of one type, neither [charge.success] nor
    [charge.failed], the one whose [data.status] is [success] sets the payment
    to [paid] while the other changes nothing. *)
Lemma event_type_not_decisive_counterexample :
  (exists w',
     Alt.paystack_webhook (Sample.signed failure) Sample.healthy pending =
       (Ok acknowledged, w') /\
     store_calls (trace w') = [] /\
     map pay_status (payments w') = ["initiated"]) /\
  (exists w',
     Alt.paystack_webhook (Sample.signed refund) Sample.healthy pending =
       (Ok acknowledged, w') /\
     payments w' = payments pending) /\
  (exists w',
     Alt.paystack_webhook (Sample.signed refund_with_success) Sample.healthy pending =
       (Ok acknowledged, w') /\
     get_opt refund_with_success "event" = get_opt refund "event" /\
     store_calls (trace w') =
       [PaymentsUpdate "paid" (VStr "ps_ref_X") Succeeds;
        AppointmentsUpdate "confirmed" (VStr "A1") Succeeds] /\
     map pay_status (payments w') = ["paid"]).
Proof.
  split; [|split]; eexists; repeat split.
Qed.

(** C10 as stated fails on part_000: a [charge.failed] event whose
    [data.status] is [success] confirms the appointment its metadata name. *)
Lemma charge_failed_writes_appointments_counterexample :
  is_string (get_opt failed_but_successful "event") "charge.failed" = true /\
  exists w',
    Alt.paystack_webhook (Sample.signed failed_but_successful) Sample.healthy pending =
      (Ok acknowledged, w') /\
    appointments pending = [{| appt_id := "A1"; appt_status := "pending" |}] /\
    appointments w' = [{| appt_id := "A1"; appt_status := "confirmed" |}] /\
    appointment_writes (trace w') =
      [AppointmentsUpdate "confirmed" (VStr "A1") Succeeds].
Proof.
  split; [reflexivity|]. eexists. repeat split.
Qed.

End MainRuns.

(** ** Further properties of src/deepseek_javascript_20250903_d1d6a6.js *)

Section MoreOfMain.

Variable hmac_sha512_hex : string -> string -> string.
Variable JSON_stringify : value -> string.
Variable times_100 : value -> value.
Variable js_text : value -> string.
Variable PAYSTACK_WEBHOOK_SECRET : option string.

Local Abbreviation secret_in_use := (Main.configured_secret PAYSTACK_WEBHOOK_SECRET).
Local Abbreviation verify :=
  (Main.verifyPaystackSignature hmac_sha512_hex JSON_stringify PAYSTACK_WEBHOOK_SECRET).
Local Abbreviation webhook :=
  (Main.paystack_webhook hmac_sha512_hex JSON_stringify PAYSTACK_WEBHOOK_SECRET).
Local Abbreviation init := (Main.paystack_init times_100 js_text).
Local Abbreviation reconciles :=
  (webhook_reconciles hmac_sha512_hex JSON_stringify PAYSTACK_WEBHOOK_SECRET).
Local Abbreviation runs :=
  (webhook_run hmac_sha512_hex JSON_stringify PAYSTACK_WEBHOOK_SECRET).

(** *** The webhook *)

(** The three answers of the webhook, and when it is the 401. *)
Lemma webhook_answers (req : request) (env : environment) (w : world) :
  exists resp w',
    webhook req env w = (Ok resp, w') /\
    (resp = acknowledged /\ fst (verify req env w) = Ok true \/
     resp = processing_failed /\ fst (verify req env w) <> Ok false \/
     resp = unauthorized /\ fst (verify req env w) = Ok false).
Proof.
  destruct (webhook_total hmac_sha512_hex JSON_stringify PAYSTACK_WEBHOOK_SECRET req env w)
    as (resp & w' & Hrun & _).
  exists resp, w'. split; [exact Hrun|].
  assert (Hfst : fst (webhook req env w) = Ok resp) by (rewrite Hrun; reflexivity).
  destruct (verify req env w) as [[[|]|e] w1] eqn:Hv; cbn [fst].
  - destruct (nullish (body req)) eqn:Hb.
    + rewrite (webhook_unreadable_body _ _ _ _ _ _ _ Hv Hb) in Hfst.
      injection Hfst as <-. right. left. split; [reflexivity|discriminate].
    + rewrite (runs req env w w1 Hv Hb) in Hfst. cbn zeta in Hfst.
      assert (Hanswer : forall x, fst (answer x) = Ok resp ->
                resp = acknowledged \/ resp = processing_failed).
      { intros x. rewrite answer_returned. destruct (returned (fst x));
          intros H; injection H as <-; auto. }
      assert (Hr : resp = acknowledged \/ resp = processing_failed).
      { destruct (is_string (get_opt (body req) "event") "charge.success");
          [|destruct (is_string (get_opt (body req) "event") "charge.failed")];
          try (destruct (nullish (get_opt (body req) "data")));
          try (apply Hanswer in Hfst; exact Hfst);
          injection Hfst as <-; auto. }
      destruct Hr as [->| ->]; [left; auto|right; left]. split; [reflexivity|discriminate].
  - rewrite (webhook_rejects _ _ _ _ _ _ _ Hv) in Hfst. injection Hfst as <-.
    right. right. auto.
  - rewrite (webhook_verifier_throws _ _ _ _ _ _ _ _ Hv) in Hfst. injection Hfst as <-.
    right. left. split; [reflexivity|discriminate].
Qed.

(** X1. The webhook lets no exception escape: every delivery is answered,
    with 200, 401 or 500, and with 401 exactly when the verifier returned
    [false]. *)
Theorem webhook_always_answers (req : request) (env : environment) (w : world) :
  exists resp w',
    webhook req env w = (Ok resp, w') /\
    (status_code resp = 200 \/ status_code resp = 401 \/ status_code resp = 500)%Z /\
    (status_code resp = 401%Z <-> fst (verify req env w) = Ok false).
Proof.
  destruct (webhook_answers req env w) as (resp & w' & Hrun & Hcases).
  exists resp, w'. split; [exact Hrun|].
  destruct Hcases as [[-> Hv]|[[-> Hv]|[-> Hv]]]; cbn; (split; [auto|]).
  - rewrite Hv. split; discriminate.
  - split; [discriminate|]. intros H. contradiction.
  - split; auto.
Qed.

(** X2. Without a configured secret the signature header plays no part:
    two deliveries with the same body are handled alike whatever their
    headers, and none is answered 401. *)
Theorem unsigned_deliveries_accepted (b : value) (h1 h2 : list (string * string))
    (env : environment) (w : world) :
  secret_in_use = None ->
  webhook {| body := b; headers := h1 |} env w =
  webhook {| body := b; headers := h2 |} env w /\
  forall resp w',
    webhook {| body := b; headers := h1 |} env w = (Ok resp, w') ->
    status_code resp <> 401%Z.
Proof.
  intros Hs. split.
  - unfold Main.paystack_webhook, Main.verifyPaystackSignature. rewrite Hs. reflexivity.
  - intros resp w' Hrun.
    destruct (webhook_answers {| body := b; headers := h1 |} env w)
      as (resp0 & w0 & Hrun0 & Hcases).
    rewrite Hrun in Hrun0. injection Hrun0 as <- <-.
    destruct Hcases as [[-> _]|[[-> _]|[_ Hv]]]; try discriminate.
    unfold Main.verifyPaystackSignature in Hv. rewrite Hs in Hv. discriminate.
Qed.

Lemma verified_somewhere (req : request) (env : environment) (w : world) :
  fst (verify req env w) = Ok true ->
  forall env' w0, exists w1, verify req env' w0 = (Ok true, w1).
Proof.
  intros Hv env' w0.
  pose proof (verify_answer_independent hmac_sha512_hex JSON_stringify
                PAYSTACK_WEBHOOK_SECRET req env' env w0 w) as H.
  rewrite Hv in H. destruct (verify req env' w0) as [r w1]. cbn in H. subst r. eauto.
Qed.

Lemma update_payment_unmatched (st : string) (reference : value) (ps : list payment) :
  (forall p, In p ps -> eq_filter (pay_ref p) reference = false) ->
  map (update_payment st reference) ps = ps.
Proof.
  intros H. rewrite <- (map_id ps) at 2. apply map_ext_in.
  intros p Hin. unfold update_payment. rewrite (H p Hin). reflexivity.
Qed.

Lemma update_payment_overwrites (st1 st2 : string) (reference : value) (p : payment) :
  update_payment st2 reference (update_payment st1 reference p) =
  update_payment st2 reference p.
Proof.
  unfold update_payment.
  destruct (eq_filter (pay_ref p) reference) eqn:E; cbn; rewrite E; reflexivity.
Qed.

Lemma update_payment_commutes (st1 st2 r1 r2 : string) (p : payment) :
  r1 <> r2 ->
  update_payment st2 (VStr r2) (update_payment st1 (VStr r1) p) =
  update_payment st1 (VStr r1) (update_payment st2 (VStr r2) p).
Proof.
  intros Hne. unfold update_payment, eq_filter. cbn [js_String].
  destruct (String.eqb_spec (pay_ref p) r1) as [E1|E1];
    destruct (String.eqb_spec (pay_ref p) r2) as [E2|E2]; cbn [pay_ref set_status];
    try (destruct (String.eqb_spec (pay_ref p) r1); [|contradiction]);
    try (destruct (String.eqb_spec (pay_ref p) r2); [|contradiction]);
    try (destruct (String.eqb_spec (pay_ref p) r1); [contradiction|]);
    try (destruct (String.eqb_spec (pay_ref p) r2); [contradiction|]);
    try reflexivity.
  congruence.
Qed.

(** X3. A verified [charge.success] event with a string reference and a
    non-empty string [appointment_id], served by the store, is answered 200
    and leaves every payment carrying the reference [paid] and every
    appointment with that id [confirmed]; all other rows are as before. *)
Theorem charge_success_settles (req : request) (env : environment) (w : world)
    (r a : string) :
  fst (verify req env w) = Ok true ->
  is_string (get_opt (body req) "event") "charge.success" = true ->
  get_opt (get_opt (body req) "data") "reference" = VStr r ->
  get_opt (get_opt (get_opt (body req) "data") "metadata") "appointment_id" = VStr a ->
  a <> EmptyString ->
  on_update_payments env = Succeeds ->
  on_update_appointments env = Succeeds ->
  exists w',
    webhook req env w = (Ok acknowledged, w') /\
    payments w' = map (update_payment "paid" (VStr r)) (payments w) /\
    appointments w' = map (update_appointment "confirmed" (VStr a)) (appointments w) /\
    (forall p, In p (payments w) -> pay_ref p = r ->
               In (set_status "paid" p) (payments w')) /\
    (forall x, In x (appointments w) -> appt_id x = a ->
               In {| appt_id := a; appt_status := "confirmed" |} (appointments w')).
Proof.
  intros Hv Ht Href Hid Ha Hop Hoa.
  destruct (verified_somewhere req env w Hv env w) as [w1 Hv1].
  assert (Hb : nullish (body req) = false).
  { destruct (body req); cbn in Ht; try discriminate; reflexivity. }
  pose proof (reference_readable _ _ Href) as Hd.
  destruct (reconciles req env w w1 "paid" Hv1 Hb Hd (or_introl (conj Ht eq_refl)))
    as (appt & res & w' & rest & Hrun & Happt & Hp & _ & Hrest & Hret).
  cbn in Happt. rewrite Hid in Happt. subst appt. cbn [default_null] in *.
  assert (Htruthy : truthy (VStr a) = true).
  { cbn. destruct (String.eqb_spec a EmptyString); [contradiction|reflexivity]. }
  rewrite Href, Hop in Hp. cbn in Hp.
  destruct Hrest as [(_ & _ & Hno)|(Hr & _ & _ & _ & Happ)].
  { specialize (Hno Hop). rewrite Htruthy in Hno. discriminate. }
  rewrite Hoa in Happ. cbn in Happ.
  assert (Hres : returned res = true).
  { apply Hret. split; [exact Hop|]. right. rewrite Hoa. intros; discriminate. }
  rewrite Hres in Hrun.
  exists w'. split; [exact Hrun|]. split; [exact Hp|]. split; [exact Happ|]. split.
  - intros p Hin Hpr. rewrite Hp, <- (update_payment_matching "paid" r p Hpr).
    apply in_map. exact Hin.
  - intros x Hin Hx. rewrite Happ. apply in_map_iff. exists x. split; [|exact Hin].
    unfold update_appointment, eq_filter. cbn [js_String]. rewrite Hx, String.eqb_refl.
    reflexivity.
Qed.

(** X4. A verified [charge.success] or [charge.failed] event whose
    reference is a string that no payment carries changes no payment; served
    by the store it is answered 200 like any other, and the handler writes no
    warning and no error about it. *)
Theorem unknown_reference_unnoticed (req : request) (env : environment)
    (w w1 : world) (r : string) :
  verify req env w = (Ok true, w1) ->
  nullish (body req) = false ->
  let type := get_opt (body req) "event" in
  let d := get_opt (body req) "data" in
  get_opt d "reference" = VStr r ->
  is_string type "charge.success" = true \/ is_string type "charge.failed" = true ->
  (forall p, In p (payments w) -> pay_ref p <> r) ->
  exists resp w' added,
    webhook req env w = (Ok resp, w') /\
    payments w' = payments w /\
    trace w' = trace w1 ++ added /\
    (on_update_payments env = Succeeds ->
     on_update_appointments env = Succeeds ->
     resp = acknowledged /\ Forall (fun e => is_complaint e = false) added).
Proof.
  intros Hv Hb type d Href Ht Hother.
  set (reference := VStr r).
  pose proof (reference_readable _ _ Href) as Hd. fold d in Hd.
  assert (Hnone : forall p, In p (payments w) ->
                            eq_filter (pay_ref p) reference = false).
  { intros p Hin. unfold eq_filter, reference. cbn [js_String].
    apply String.eqb_neq. exact (Hother p Hin). }
  destruct (verify_true_frame _ _ _ _ _ _ _ Hv) as (Hp1 & _ & _).
  pose proof (runs req env w w1 Hv Hb) as Hrun. cbn zeta in Hrun.
  fold type d in Hrun. rewrite Hd, Href in Hrun. fold reference in Hrun.
  assert (Hmap : forall st, map (update_payment st reference) (payments w1) = payments w).
  { intros st. rewrite Hp1. apply update_payment_unmatched. exact Hnone. }
  assert (Hcall : forall st appt, exists resp w' added,
             answer (Main.updatePaymentStatus reference st appt env
                       (after w1 (payments w1) (appointments w1)
                          [ConsoleLog "Paystack webhook received"]))
             = (Ok resp, w') /\
             payments w' = payments w /\
             trace w' = trace w1 ++ added /\
             (on_update_payments env = Succeeds ->
              on_update_appointments env = Succeeds ->
              resp = acknowledged /\ Forall (fun e => is_complaint e = false) added)).
  { intros st appt. rewrite updatePaymentStatus_run. cbn zeta.
    cbn [after payments appointments trace].
    destruct (on_update_payments env);
      [destruct ((st =? "paid") && truthy (default_null appt));
       [destruct (on_update_appointments env)|]| |];
      cbn [answer]; do 3 eexists; (split; [reflexivity|]);
      cbn [after payments appointments trace]; rewrite <- ?app_assoc; cbn [app];
      rewrite ?Hmap, ?Hp1; (split; [reflexivity|]); (split; [reflexivity|]);
      intros Hop Hoa; try discriminate; split; try reflexivity; repeat constructor. }
  destruct Ht as [Ht|Ht].
  - rewrite Ht in Hrun. rewrite Hrun. apply Hcall.
  - destruct (is_string type "charge.success") eqn:Hs.
    + pose proof (is_string_inj _ _ _ Hs Ht). discriminate.
    + rewrite Ht in Hrun. rewrite Hrun. apply Hcall.
Qed.

(** X5. A verified [charge.success] or [charge.failed] event without a
    [data] object is answered 500 before any store call: both tables stay as
    they were. *)
Theorem unreadable_event_fails_early (req : request) (env : environment)
    (w w1 : world) :
  verify req env w = (Ok true, w1) ->
  nullish (body req) = false ->
  is_string (get_opt (body req) "event") "charge.success" = true \/
  is_string (get_opt (body req) "event") "charge.failed" = true ->
  nullish (get_opt (body req) "data") = true ->
  exists w',
    webhook req env w = (Ok processing_failed, w') /\
    payments w' = payments w /\ appointments w' = appointments w /\
    store_calls (trace w') = store_calls (trace w).
Proof.
  intros Hv Hb Ht Hd.
  destruct (verify_true_frame _ _ _ _ _ _ _ Hv) as (Hp1 & Ha1 & Ht1).
  pose proof (runs req env w w1 Hv Hb) as Hrun. cbn zeta in Hrun.
  rewrite Hd in Hrun.
  assert (Hrun' : webhook req env w =
                  answer (Throw (TypeError EmptyString),
                          after w1 (payments w1) (appointments w1)
                            [ConsoleLog "Paystack webhook received"])).
  { rewrite Hrun.
    destruct (is_string (get_opt (body req) "event") "charge.success");
      [reflexivity|].
    destruct Ht as [Ht|Ht]; [discriminate|]. rewrite Ht. reflexivity. }
  rewrite Hrun'. eexists. split; [reflexivity|].
  cbn [after payments appointments trace].
  rewrite !store_calls_app. cbn. rewrite !app_nil_r. auto.
Qed.

(** X6. The last applied event wins: of two verified [charge.success] or
    [charge.failed] events for one reference, delivered one after the other,
    the second alone decides the payments when the store applies its update;
    they end as if the first had never been delivered. *)
Theorem last_event_wins (req1 req2 : request) (env1 env2 : environment) (w : world)
    (st2 : string) :
  fst (verify req1 env1 w) = Ok true ->
  fst (verify req2 env2 w) = Ok true ->
  nullish (get_opt (body req1) "data") = false ->
  nullish (get_opt (body req2) "data") = false ->
  let reference := get_opt (get_opt (body req2) "data") "reference" in
  get_opt (get_opt (body req1) "data") "reference" = reference ->
  is_string (get_opt (body req1) "event") "charge.success" = true \/
  is_string (get_opt (body req1) "event") "charge.failed" = true ->
  (is_string (get_opt (body req2) "event") "charge.success" = true /\ st2 = "paid" \/
   is_string (get_opt (body req2) "event") "charge.failed" = true /\ st2 = "failed") ->
  on_update_payments env2 = Succeeds ->
  exists resp1 first resp2 second,
    webhook req1 env1 w = (Ok resp1, first) /\
    webhook req2 env2 first = (Ok resp2, second) /\
    payments second = map (update_payment st2 reference) (payments w).
Proof.
  intros Hv1 Hv2 Hd1 Hd2 reference Href Ht1 Ht2 Ho2.
  assert (Hb : forall b, nullish (get_opt b "data") = false -> nullish b = false).
  { intros b. destruct b; cbn; intros H; try discriminate; reflexivity. }
  destruct (verified_somewhere req1 env1 w Hv1 env1 w) as [w1 Hw1].
  assert (Hcase1 : exists st1,
             is_string (get_opt (body req1) "event") "charge.success" = true /\
             st1 = "paid" \/
             is_string (get_opt (body req1) "event") "charge.failed" = true /\
             st1 = "failed").
  { destruct Ht1 as [H|H]; [exists "paid"|exists "failed"]; auto. }
  destruct Hcase1 as [st1 Hcase1].
  destruct (reconciles req1 env1 w w1 st1 Hw1 (Hb _ Hd1) Hd1 Hcase1)
    as (appt1 & r1 & first & rest1 & Hrun1 & _ & Hp1 & _).
  destruct (verified_somewhere req2 env2 w Hv2 env2 first) as [w2 Hw2].
  destruct (reconciles req2 env2 first w2 st2 Hw2 (Hb _ Hd2) Hd2 Ht2)
    as (appt2 & r2 & second & rest2 & Hrun2 & _ & Hp2 & _).
  do 4 eexists. split; [exact Hrun1|]. split; [exact Hrun2|].
  fold reference in Hp2. rewrite Hp2, Ho2, Hp1, Href. cbn [payments_after].
  destruct (on_update_payments env1); cbn [payments_after]; try reflexivity.
  rewrite map_map. apply map_ext. intros p. apply update_payment_overwrites.
Qed.

(** X7. Deliveries for different references do not interfere: two verified
    events with different string references, each applied by the store,
    leave the same payments in either order of delivery. *)
Theorem different_references_commute (reqA reqB : request) (env : environment)
    (w : world) (rA rB : string) :
  fst (verify reqA env w) = Ok true ->
  fst (verify reqB env w) = Ok true ->
  get_opt (get_opt (body reqA) "data") "reference" = VStr rA ->
  get_opt (get_opt (body reqB) "data") "reference" = VStr rB ->
  rA <> rB ->
  is_string (get_opt (body reqA) "event") "charge.success" = true \/
  is_string (get_opt (body reqA) "event") "charge.failed" = true ->
  is_string (get_opt (body reqB) "event") "charge.success" = true \/
  is_string (get_opt (body reqB) "event") "charge.failed" = true ->
  on_update_payments env = Succeeds ->
  exists respA wA respAB wAB respB wB respBA wBA,
    webhook reqA env w = (Ok respA, wA) /\ webhook reqB env wA = (Ok respAB, wAB) /\
    webhook reqB env w = (Ok respB, wB) /\ webhook reqA env wB = (Ok respBA, wBA) /\
    payments wAB = payments wBA.
Proof.
  intros HvA HvB HrA HrB Hne HtA HtB Ho.
  assert (Hb : forall b, nullish (get_opt b "data") = false -> nullish b = false).
  { intros b. destruct b; cbn; intros H; try discriminate; reflexivity. }
  pose proof (reference_readable _ _ HrA) as HdA.
  pose proof (reference_readable _ _ HrB) as HdB.
  assert (Hcase : forall req,
             is_string (get_opt (body req) "event") "charge.success" = true \/
             is_string (get_opt (body req) "event") "charge.failed" = true ->
             exists st,
               is_string (get_opt (body req) "event") "charge.success" = true /\
               st = "paid" \/
               is_string (get_opt (body req) "event") "charge.failed" = true /\
               st = "failed").
  { intros req [H|H]; [exists "paid"|exists "failed"]; auto. }
  destruct (Hcase _ HtA) as [stA HcA]. destruct (Hcase _ HtB) as [stB HcB].
  destruct (verified_somewhere reqA env w HvA env w) as [a1 Ha1].
  destruct (reconciles reqA env w a1 stA Ha1 (Hb _ HdA) HdA HcA)
    as (? & ? & wA & ? & HrunA & _ & HpA & _).
  destruct (verified_somewhere reqB env w HvB env wA) as [b2 Hb2].
  destruct (reconciles reqB env wA b2 stB Hb2 (Hb _ HdB) HdB HcB)
    as (? & ? & wAB & ? & HrunAB & _ & HpAB & _).
  destruct (verified_somewhere reqB env w HvB env w) as [b1 Hb1].
  destruct (reconciles reqB env w b1 stB Hb1 (Hb _ HdB) HdB HcB)
    as (? & ? & wB & ? & HrunB & _ & HpB & _).
  destruct (verified_somewhere reqA env w HvA env wB) as [a2 Ha2].
  destruct (reconciles reqA env wB a2 stA Ha2 (Hb _ HdA) HdA HcA)
    as (? & ? & wBA & ? & HrunBA & _ & HpBA & _).
  do 8 eexists.
  split; [exact HrunA|]. split; [exact HrunAB|].
  split; [exact HrunB|]. split; [exact HrunBA|].
  rewrite HpAB, HpBA, HpA, HpB, HrA, HrB, Ho. cbn [payments_after].
  rewrite !map_map. apply map_ext. intros p.
  apply update_payment_commutes. exact Hne.
Qed.

(** *** [updatePaymentStatus] and [createPaymentRecord] *)

(** X8. [updatePaymentStatus] returns [true] or throws a DatabaseError
    (status 500), nothing else, whatever the store does.  When it throws
    because the payment update was not applied, neither table has changed;
    when it throws later, the payment update stays applied. *)
Theorem updatePaymentStatus_outcomes (reference : value) (st : string) (appt : value)
    (env : environment) (w : world) :
  exists r w',
    Main.updatePaymentStatus reference st appt env w = (r, w') /\
    (r = Ok true \/ exists m, r = Throw (DatabaseError m)) /\
    payments w' = payments_after (on_update_payments env) st reference (payments w) /\
    (on_update_payments env <> Succeeds ->
     returned r = false /\ payments w' = payments w /\ appointments w' = appointments w).
Proof.
  rewrite updatePaymentStatus_run. cbn zeta.
  destruct (on_update_payments env);
    [destruct ((st =? "paid") && truthy (default_null appt));
     [destruct (on_update_appointments env)|]| |];
    do 2 eexists; (split; [reflexivity|]); cbn [after payments appointments payments_after];
    (split; [eauto|]); (split; [reflexivity|]); intros H; try contradiction; auto.
Qed.

(** X9. [createPaymentRecord] either stores exactly one new row, with the
    given fields and status [initiated], and returns it, or throws a
    DatabaseError and leaves the payments as they were; it never touches the
    appointments. *)
Theorem createPaymentRecord_outcomes (appointment_id amount_ngn : value)
    (provider ref : string) (env : environment) (w : world) :
  exists r w',
    Main.createPaymentRecord appointment_id amount_ngn provider ref env w = (r, w') /\
    appointments w' = appointments w /\
    ((exists row,
        r = Ok (Some row) /\ on_insert_payment env = Succeeds /\
        payments w' = payments w ++ [row] /\
        pay_appointment_id row = appointment_id /\ pay_amount_ngn row = amount_ngn /\
        pay_provider row = provider /\ pay_status row = "initiated" /\
        pay_ref row = ref)
     \/
     (exists m,
        r = Throw (DatabaseError m) /\ on_insert_payment env <> Succeeds /\
        payments w' = payments w)).
Proof.
  unfold Main.createPaymentRecord, try_catch, bind, payments_insert.
  destruct (on_insert_payment env); cbn; do 2 eexists;
    (split; [reflexivity|]); cbn; (split; [reflexivity|]).
  - left. eexists. repeat split.
  - right. eexists. repeat split. discriminate.
  - right. eexists. repeat split. discriminate.
Qed.

(** *** Initiation *)

Lemma init_unreadable (req : request) (env : environment) (w : world) :
  nullish (body req) = true ->
  exists m, init req env w = next (TypeError m) env w.
Proof.
  intros Hb. destruct (get_prop_nullish _ "appointment_id" env w Hb) as [m Hm].
  exists m. unfold Main.paystack_init, try_catch. unfold bind at 1. rewrite Hm.
  reflexivity.
Qed.

Lemma init_invalid (req : request) (env : environment) (w : world) :
  nullish (body req) = false ->
  truthy (get_opt (body req) "appointment_id") = false \/
  truthy (get_opt (body req) "amount_ngn") = false ->
  init req env w =
    next (PaymentError "appointment_id and amount_ngn are required") env w.
Proof.
  intros Hb Hbad. unfold Main.paystack_init.
  rewrite !(get_prop_defined _ _ Hb).
  unfold try_catch. unfold bind at 1. cbv [ret]. unfold bind at 1. unfold bind at 1.
  destruct Hbad as [H|H]; rewrite H; cbn [negb orb]; [reflexivity|].
  rewrite orb_true_r. reflexivity.
Qed.

(** Every run of the initiation, by what the collaborators answer. *)
Lemma init_answers (req : request) (env : environment) (w : world) :
  let appointment_id := get_opt (body req) "appointment_id" in
  let amount_ngn := get_opt (body req) "amount_ngn" in
  let ref := ("ps_ref_" ++ uuid env)%string in
  let row := initiated_row w appointment_id amount_ngn ref in
  exists resp w',
    init req env w = (Ok resp, w') /\
    appointments w' = appointments w /\
    (status_code resp = 200 \/ status_code resp = 400 \/ status_code resp = 500)%Z /\
    (status_code resp = 200%Z ->
     truthy appointment_id = true /\ truthy amount_ngn = true /\
     on_insert_payment env = Succeeds /\
     payments w' = payments w ++ [row] /\
     exists json, on_gateway env = Replies json /\
                  truthy (get_opt json "status") = true).
Proof.
  intros appointment_id amount_ngn ref row.
  destruct (nullish (body req)) eqn:Hb.
  { destruct (init_unreadable req env w Hb) as [m ->]. rewrite next_run.
    do 2 eexists. split; [reflexivity|]. cbn. split; [reflexivity|].
    split; [auto|discriminate]. }
  destruct (truthy appointment_id) eqn:Ha;
    [destruct (truthy amount_ngn) eqn:Hm|].
  2: { rewrite (init_invalid req env w Hb (or_intror Hm)), next_run.
       do 2 eexists. split; [reflexivity|]. cbn. split; [reflexivity|].
       split; [auto|discriminate]. }
  2: { rewrite (init_invalid req env w Hb (or_introl Ha)), next_run.
       do 2 eexists. split; [reflexivity|]. cbn. split; [reflexivity|].
       split; [auto|discriminate]. }
  destruct (on_insert_payment env) eqn:Hi.
  2, 3: destruct (init_not_inserted times_100 js_text req env w Ha Hm) as [e Hrun];
    [rewrite Hi; discriminate|]; rewrite Hrun, next_run;
    do 2 eexists; (split; [reflexivity|]); cbn; (split; [reflexivity|]);
    (split; [auto|discriminate]).
  rewrite (init_inserted times_100 js_text req env w Ha Hm Hi). cbn zeta.
  fold appointment_id amount_ngn ref. fold row.
  set (wi := after w _ _ _).
  assert (Hfail : forall e : js_error, statusCode e = None ->
             exists resp w',
               next e env wi = (Ok resp, w') /\
               appointments w' = appointments w /\
               (status_code resp = 200 \/ status_code resp = 400 \/
                status_code resp = 500)%Z /\
               (status_code resp = 200%Z ->
                true = true /\ true = true /\ Succeeds = Succeeds /\
                payments w' = payments w ++ [row] /\
                exists json, on_gateway env = Replies json /\
                             truthy (get_opt json "status") = true)).
  { intros e He. rewrite next_run, He. do 2 eexists. split; [reflexivity|].
    cbn. split; [reflexivity|]. split; [auto|discriminate]. }
  destruct (on_gateway env) as [json|m] eqn:Hg.
  2: { apply (Hfail (Rejected m)). reflexivity. }
  unfold try_catch. unfold bind at 1.
  destruct (nullish json) eqn:Hj.
  { destruct (get_prop_nullish _ "status" env wi Hj) as [m ->].
    apply (Hfail (TypeError m)). reflexivity. }
  rewrite (get_prop_defined _ "status" Hj). cbv [ret].
  destruct (truthy (get_opt json "status")) eqn:Hs; cbn [negb].
  - unfold bind at 1. rewrite (get_prop_defined _ "data" Hj). cbv [ret].
    destruct (nullish (get_opt json "data")) eqn:Hd.
    + unfold bind at 1.
      destruct (get_prop_nullish _ "authorization_url" env wi Hd) as [m ->].
      apply (Hfail (TypeError m)). reflexivity.
    + unfold bind.
      rewrite (get_prop_defined _ "authorization_url" Hd),
        (get_prop_defined _ "access_code" Hd).
      cbv [ret]. do 2 eexists. split; [reflexivity|]. cbn. split; [reflexivity|].
      split; [auto|]. intros _. repeat split. eauto.
  - unfold bind at 1. rewrite updatePaymentStatus_run. cbn zeta.
    change ("failed" =? "paid") with false. cbn [andb].
    rewrite (get_prop_defined _ "message" Hj).
    destruct (on_update_payments env); cbv [bind ret throw]; rewrite next_run;
      cbn [statusCode];
      do 2 eexists; (split; [reflexivity|]); cbn; (split; [reflexivity|]);
      (split; [auto|discriminate]).
Qed.

(** X10. A request whose [appointment_id] or [amount_ngn] is missing or
    falsy, an amount of 0 for one, is answered 400 with a PaymentError before
    anything is done: both tables stay as they were, and neither the store
    nor the gateway is called. *)
Theorem init_rejects_invalid_request (req : request) (env : environment) (w : world) :
  nullish (body req) = false ->
  truthy (get_opt (body req) "appointment_id") = false \/
  truthy (get_opt (body req) "amount_ngn") = false ->
  exists w' added,
    init req env w =
      (Ok {| status_code := 400;
             sent := ErrorReport
               (PaymentError "appointment_id and amount_ngn are required") |}, w') /\
    payments w' = payments w /\ appointments w' = appointments w /\
    trace w' = trace w ++ added /\
    Forall (fun e => is_store_call e = false /\ is_gateway_call e = false) added.
Proof.
  intros Hb Hbad. rewrite (init_invalid req env w Hb Hbad), next_run.
  do 2 eexists. split; [reflexivity|]. cbn [after payments appointments trace].
  repeat split; repeat constructor.
Qed.

(** X11. Initiation always answers, with 200, 400 or 500, never changes
    the appointments, and answers 200 only for a valid request whose row the
    store inserted and whose checkout the gateway accepted; the payments are
    then the old ones followed by the new [initiated] row. *)
Theorem init_always_answers (req : request) (env : environment) (w : world) :
  let appointment_id := get_opt (body req) "appointment_id" in
  let amount_ngn := get_opt (body req) "amount_ngn" in
  let ref := ("ps_ref_" ++ uuid env)%string in
  let row := initiated_row w appointment_id amount_ngn ref in
  exists resp w',
    init req env w = (Ok resp, w') /\
    appointments w' = appointments w /\
    (status_code resp = 200 \/ status_code resp = 400 \/ status_code resp = 500)%Z /\
    (status_code resp = 200%Z ->
     truthy appointment_id = true /\ truthy amount_ngn = true /\
     on_insert_payment env = Succeeds /\
     payments w' = payments w ++ [row] /\
     exists json, on_gateway env = Replies json /\
                  truthy (get_opt json "status") = true).
Proof. exact (init_answers req env w). Qed.

Lemma init_succeeds (req : request) (env : environment) (w : world) (json : value) :
  let appointment_id := get_opt (body req) "appointment_id" in
  let amount_ngn := get_opt (body req) "amount_ngn" in
  let ref := ("ps_ref_" ++ uuid env)%string in
  let row := initiated_row w appointment_id amount_ngn ref in
  let d := get_opt json "data" in
  truthy appointment_id = true ->
  truthy amount_ngn = true ->
  on_insert_payment env = Succeeds ->
  on_gateway env = Replies json ->
  truthy (get_opt json "status") = true ->
  nullish d = false ->
  init req env w =
    (Ok {| status_code := 200;
           sent := Json (VObj [("authorization_url", get_opt d "authorization_url");
                               ("access_code", get_opt d "access_code");
                               ("reference", VStr ref)]) |},
     after w (payments w ++ [row]) (appointments w)
       [PaymentsInsert appointment_id amount_ngn "paystack" "initiated" ref Succeeds;
        GatewayInitialize (times_100 amount_ngn)
          (js_or (get_opt (body req) "patient_email") (VStr "customer@example.com"))
          ref appointment_id (Replies json)]).
Proof.
  intros appointment_id amount_ngn ref row d Ha Hm Hi Hg Hs Hd.
  pose proof (valid_body_readable _ _ Hs) as Hj.
  rewrite (init_inserted times_100 js_text req env w Ha Hm Hi). cbn zeta.
  rewrite Hg. unfold try_catch. unfold bind at 1.
  rewrite (get_prop_defined _ "status" Hj). cbv [ret]. rewrite Hs. cbn [negb].
  unfold bind. rewrite (get_prop_defined _ "data" Hj). cbv [ret].
  fold d. rewrite (get_prop_defined _ "authorization_url" Hd),
    (get_prop_defined _ "access_code" Hd).
  reflexivity.
Qed.

(** X12. A valid request whose row is inserted and whose checkout the
    gateway opens is answered 200 with the gateway's [authorization_url] and
    [access_code] and with the reference [ps_ref_<uuid>], the same one that
    the stored row carries and the gateway was given; the row stays
    [initiated] and nothing else is called. *)
Theorem init_opens_checkout (req : request) (env : environment) (w : world)
    (json : value) :
  let appointment_id := get_opt (body req) "appointment_id" in
  let amount_ngn := get_opt (body req) "amount_ngn" in
  let ref := ("ps_ref_" ++ uuid env)%string in
  let row := initiated_row w appointment_id amount_ngn ref in
  let d := get_opt json "data" in
  truthy appointment_id = true ->
  truthy amount_ngn = true ->
  on_insert_payment env = Succeeds ->
  on_gateway env = Replies json ->
  truthy (get_opt json "status") = true ->
  nullish d = false ->
  init req env w =
    (Ok {| status_code := 200;
           sent := Json (VObj [("authorization_url", get_opt d "authorization_url");
                               ("access_code", get_opt d "access_code");
                               ("reference", VStr ref)]) |},
     after w (payments w ++ [row]) (appointments w)
       [PaymentsInsert appointment_id amount_ngn "paystack" "initiated" ref Succeeds;
        GatewayInitialize (times_100 amount_ngn)
          (js_or (get_opt (body req) "patient_email") (VStr "customer@example.com"))
          ref appointment_id (Replies json)]).
Proof. exact (init_succeeds req env w json). Qed.

(** X13. When the gateway cannot be reached, or answers with something
    that cannot be read, the stored row is not marked [failed]: the request is
    answered 500, the row stays [initiated], and after the insert and the
    gateway call neither the store nor the gateway is called again.  Only a
    reply with a falsy [status] leads to the payment update. *)
Theorem init_unreachable_gateway_leaves_initiated (req : request) (env : environment)
    (w : world) :
  let appointment_id := get_opt (body req) "appointment_id" in
  let amount_ngn := get_opt (body req) "amount_ngn" in
  let ref := ("ps_ref_" ++ uuid env)%string in
  let row := initiated_row w appointment_id amount_ngn ref in
  truthy appointment_id = true ->
  truthy amount_ngn = true ->
  on_insert_payment env = Succeeds ->
  (exists m, on_gateway env = FetchRejects m) \/
  (exists json, on_gateway env = Replies json /\
     (nullish json = true \/
      truthy (get_opt json "status") = true /\ nullish (get_opt json "data") = true)) ->
  exists e w' rest,
    instanceof_AppError e = false /\
    init req env w = (Ok {| status_code := 500; sent := ErrorReport e |}, w') /\
    payments w' = payments w ++ [row] /\
    appointments w' = appointments w /\
    trace w' =
      trace w ++
      PaymentsInsert appointment_id amount_ngn "paystack" "initiated" ref Succeeds ::
      GatewayInitialize (times_100 amount_ngn)
        (js_or (get_opt (body req) "patient_email") (VStr "customer@example.com"))
        ref appointment_id (on_gateway env) :: rest /\
    Forall (fun x => is_store_call x = false /\ is_gateway_call x = false) rest.
Proof.
  intros appointment_id amount_ngn ref row Ha Hm Hi Hg.
  rewrite (init_inserted times_100 js_text req env w Ha Hm Hi). cbn zeta.
  fold appointment_id amount_ngn ref. fold row.
  assert (Hnext : forall (e : js_error) (wi : world),
             statusCode e = None ->
             next e env wi =
               (Ok {| status_code := 500; sent := ErrorReport e |},
                after wi (payments wi) (appointments wi) [ConsoleError (message_of e)])).
  { intros e wi He. rewrite next_run, He. reflexivity. }
  destruct Hg as [[m Hg]|(json & Hg & Hbad)]; rewrite Hg.
  - exists (Rejected m). rewrite (Hnext (Rejected m)) by reflexivity.
    do 2 eexists. split; [reflexivity|]. split; [reflexivity|].
    cbn [after payments appointments trace]. rewrite <- app_assoc.
    repeat split; repeat constructor.
  - unfold try_catch. unfold bind at 1.
    destruct Hbad as [Hj|[Hs Hd]].
    + match goal with |- context [get_prop json "status" env ?wi] =>
        destruct (get_prop_nullish _ "status" env wi Hj) as [m ->] end.
      exists (TypeError m). rewrite (Hnext (TypeError m)) by reflexivity.
      do 2 eexists. split; [reflexivity|]. split; [reflexivity|].
      cbn [after payments appointments trace]. rewrite <- app_assoc.
      repeat split; repeat constructor.
    + pose proof (valid_body_readable _ _ Hs) as Hj.
      rewrite (get_prop_defined _ "status" Hj). cbv [ret]. rewrite Hs. cbn [negb].
      unfold bind at 1. rewrite (get_prop_defined _ "data" Hj). cbv [ret].
      unfold bind at 1.
      match goal with |- context [get_prop _ "authorization_url" env ?wi] =>
        destruct (get_prop_nullish _ "authorization_url" env wi Hd) as [m ->] end.
      exists (TypeError m). rewrite (Hnext (TypeError m)) by reflexivity.
      do 2 eexists. split; [reflexivity|]. split; [reflexivity|].
      cbn [after payments appointments trace]. rewrite <- app_assoc.
      repeat split; repeat constructor.
Qed.

(** X14. Initiation and reconciliation fit together: after an initiation
    answered 200, a verified [charge.success] event that carries the
    reference handed out, applied by the store, finds the row just created
    and leaves it [paid]. *)
Theorem initiated_payment_gets_paid (req : request) (env : environment) (w : world)
    (json : value) (hook : request) (env' : environment) :
  let appointment_id := get_opt (body req) "appointment_id" in
  let amount_ngn := get_opt (body req) "amount_ngn" in
  let ref := ("ps_ref_" ++ uuid env)%string in
  let row := initiated_row w appointment_id amount_ngn ref in
  truthy appointment_id = true ->
  truthy amount_ngn = true ->
  on_insert_payment env = Succeeds ->
  on_gateway env = Replies json ->
  truthy (get_opt json "status") = true ->
  nullish (get_opt json "data") = false ->
  fst (verify hook env' w) = Ok true ->
  is_string (get_opt (body hook) "event") "charge.success" = true ->
  get_opt (get_opt (body hook) "data") "reference" = VStr ref ->
  on_update_payments env' = Succeeds ->
  exists resp w1 resp' w2,
    init req env w = (Ok resp, w1) /\ status_code resp = 200%Z /\
    In row (payments w1) /\
    webhook hook env' w1 = (Ok resp', w2) /\
    In (set_status "paid" row) (payments w2).
Proof.
  intros appointment_id amount_ngn ref row Ha Hm Hi Hg Hs Hd Hv Ht Href Ho.
  pose proof (init_succeeds req env w json Ha Hm Hi Hg Hs Hd) as Hinit.
  cbn zeta in Hinit. fold appointment_id amount_ngn ref in Hinit. fold row in Hinit.
  set (w1 := after w (payments w ++ [row]) _ _) in Hinit.
  destruct (verified_somewhere hook env' w Hv env' w1) as [v1 Hv1].
  assert (Hb : nullish (body hook) = false).
  { destruct (body hook); cbn in Ht; try discriminate; reflexivity. }
  pose proof (reference_readable _ _ Href) as Hdh.
  destruct (reconciles hook env' w1 v1 "paid" Hv1 Hb Hdh (or_introl (conj Ht eq_refl)))
    as (appt & r & w2 & rest & Hrun & _ & Hp & _).
  rewrite Href, Ho in Hp. cbn [payments_after] in Hp.
  do 4 eexists. split; [exact Hinit|]. split; [reflexivity|].
  split; [cbn; apply in_or_app; right; apply in_eq|].
  split; [exact Hrun|].
  rewrite Hp. apply in_map_iff. exists row. split.
  - apply update_payment_matching. reflexivity.
  - cbn. apply in_or_app. right. apply in_eq.
Qed.

End MoreOfMain.

(** ** Further properties of src/unnamed/part_000 *)

Section MoreOfAlt.

Variable times_100 : value -> value.

(** X15. A request whose [appointment_id] or [amount_ngn] is missing or
    falsy is answered 400 before anything happens. *)
Theorem alt_init_rejects_invalid_request (req : request) (env : environment)
    (w : world) :
  nullish (body req) = false ->
  truthy (get_opt (body req) "appointment_id") = false \/
  truthy (get_opt (body req) "amount_ngn") = false ->
  Alt.paystack_init times_100 req env w =
    (Ok {| status_code := 400;
           sent := Json (VObj [("error",
                                VStr "appointment_id and amount_ngn required")]) |}, w).
Proof.
  intros Hb Hbad. unfold Alt.paystack_init.
  rewrite !(get_prop_defined _ _ Hb).
  unfold bind at 1. cbv [ret]. unfold bind at 1. unfold bind at 1.
  destruct Hbad as [H|H]; rewrite H; cbn [negb orb]; [reflexivity|].
  rewrite orb_true_r. reflexivity.
Qed.

(** X16. The body is taken apart before the [try]: a request without a
    body object is not answered at all, the TypeError leaves the handler, and
    nothing has been done by then. *)
Theorem alt_init_unreadable_body_escapes (req : request) (env : environment)
    (w : world) :
  nullish (body req) = true ->
  exists m, Alt.paystack_init times_100 req env w = (Throw (TypeError m), w).
Proof.
  intros Hb. destruct (get_prop_nullish _ "appointment_id" env w Hb) as [m Hm].
  exists m. unfold Alt.paystack_init. unfold bind at 1. rewrite Hm. reflexivity.
Qed.

(** X17. The appointment is confirmed even when the payment update came
    back with an error: the error is only logged, the payments stay as they
    were, and the appointment update is made all the same. *)
Theorem alt_appointment_confirmed_without_payment (req : request) (env : environment)
    (w : world) (m : string) :
  let d := get_opt (body req) "data" in
  let reference := get_opt d "reference" in
  let appointment_id := get_opt (get_opt d "metadata") "appointment_id" in
  is_string (get_opt (body req) "event") "charge.success" = true \/
  is_string (get_opt d "status") "success" = true ->
  truthy appointment_id = true ->
  on_update_payments env = ReturnsError m ->
  exists w',
    Alt.paystack_webhook req env w = (Ok acknowledged, w') /\
    payments w' = payments w /\
    appointments w' =
      appointments_after (on_update_appointments env) "confirmed" appointment_id
        (appointments w) /\
    store_calls (trace w') =
      store_calls (trace w) ++
      [PaymentsUpdate "paid" reference (ReturnsError m);
       AppointmentsUpdate "confirmed" appointment_id (on_update_appointments env)].
Proof.
  intros d reference appointment_id Ht Ha Ho.
  unfold Alt.paystack_webhook. unfold bind at 1. cbv [console_log emit].
  unfold bind at 1.
  assert (Hc : is_string (get_opt (body req) "event") "charge.success"
               || is_string (get_opt (get_opt (body req) "data") "status") "success"
               = true).
  { apply orb_true_iff. exact Ht. }
  rewrite Hc.
  unfold try_catch, bind, payments_update, appointments_update, console_error, emit, ret.
  rewrite Ho. cbn [error payments appointments trace].
  fold d. fold appointment_id. rewrite Ha.
  cbn [payments appointments trace].
  destruct (on_update_appointments env); eexists; (split; [reflexivity|]);
    cbn [payments appointments trace appointments_after];
    rewrite <- ?app_assoc; rewrite !store_calls_app; cbn; rewrite ?app_nil_r; auto.
Qed.

End MoreOfAlt.

(** ** Properties of the start-up configuration *)

Section StartupProperties.

Variable getenv : string -> option string.

(** X18. The loop over the required variables lets the process go on
    exactly when each of them is set to a non-empty string; otherwise the
    process exits with code 1 after naming the first one, in the order of the
    list, that is missing.  It reads no other variable, so not
    PAYSTACK_WEBHOOK_SECRET either. *)
Theorem validate_required_variables (vars : list string) :
  (Startup.validate getenv vars = Startup.Continues <->
   forall v, In v vars -> Startup.present (getenv v) = true)
  /\
  (forall code logged,
     Startup.validate getenv vars = Startup.Exits code logged ->
     code = 1%Z /\
     exists before v rest,
       vars = before ++ v :: rest /\
       Forall (fun u => Startup.present (getenv u) = true) before /\
       Startup.present (getenv v) = false /\
       logged = ("ERROR: Missing required environment variable: " ++ v)%string)
  /\
  (forall getenv' : string -> option string,
     (forall v, In v vars -> getenv' v = getenv v) ->
     Startup.validate getenv' vars = Startup.validate getenv vars).
Proof.
  induction vars as [|x vars (IH1 & IH2 & IH3)]; cbn [Startup.validate].
  - split; [|split].
    + split; [intros _ v []|reflexivity].
    + intros code logged H. discriminate.
    + reflexivity.
  - destruct (Startup.present (getenv x)) eqn:Hx; cbn [negb]; split; [|split| |split].
    + rewrite IH1. split.
      * intros H v [<-|Hin]; auto.
      * intros H v Hin. apply H. right. exact Hin.
    + intros code logged H. destruct (IH2 code logged H) as (-> & before & v & rest & Hv).
      split; [reflexivity|]. exists (x :: before), v, rest.
      destruct Hv as (-> & Hb & Hm & ->). repeat split; auto.
    + intros getenv' H. rewrite (H x (or_introl eq_refl)), Hx. cbn [negb].
      apply IH3. intros v Hin. apply H. right. exact Hin.
    + split; [discriminate|]. intros H. specialize (H x (or_introl eq_refl)).
      congruence.
    + intros code logged H. injection H as <- <-. split; [reflexivity|].
      exists [], x, vars. repeat split; auto.
    + intros getenv' H. rewrite (H x (or_introl eq_refl)), Hx. reflexivity.
Qed.

Lemma split_on_cons (sep : Ascii.ascii) (s : string) :
  exists h t, Startup.split_on sep s = h :: t.
Proof.
  induction s as [|c s (h & t & IH)]; cbn; [eauto|].
  destruct (Ascii.eqb c sep); [eauto|]. rewrite IH. eauto.
Qed.

Lemma split_on_joins (sep : Ascii.ascii) (s : string) :
  String.concat (String sep EmptyString) (Startup.split_on sep s) = s.
Proof.
  induction s as [|c s IH]; [reflexivity|]. cbn [Startup.split_on].
  destruct (split_on_cons sep s) as (h & t & Hs). rewrite Hs in *.
  destruct (Ascii.eqb_spec c sep) as [->|Hne].
  - cbn [String.concat]. cbn. rewrite <- IH. reflexivity.
  - destruct t as [|h' t]; cbn [String.concat] in *; cbn; rewrite <- IH; reflexivity.
Qed.

Lemma split_on_fields (sep : Ascii.ascii) (s : string) :
  Forall (fun field => has_char sep field = false) (Startup.split_on sep s).
Proof.
  induction s as [|c s IH]; cbn [Startup.split_on]; [repeat constructor|].
  destruct (split_on_cons sep s) as (h & t & Hs). rewrite Hs in *.
  inversion IH as [|? ? Hh Ht]; subst.
  destruct (Ascii.eqb c sep) eqn:Hc; constructor; auto.
  cbn. rewrite Hc, Hh. reflexivity.
Qed.

(** X19. Outside production exactly [http://localhost:3000] is allowed,
    whatever ALLOWED_ORIGINS says.  In production the allowed origins are the
    fields of ALLOWED_ORIGINS between its commas, taken as they stand: no
    field holds a comma, there is at least one, and joined with commas they
    give ALLOWED_ORIGINS back; with ALLOWED_ORIGINS unset or empty no origin
    is allowed. *)
Theorem cors_origin_fields :
  (Startup.env_is (getenv "NODE_ENV") "production" = false ->
   Startup.cors_origin getenv = ["http://localhost:3000"])
  /\
  (Startup.env_is (getenv "NODE_ENV") "production" = true ->
   Startup.present (getenv "ALLOWED_ORIGINS") = false ->
   Startup.cors_origin getenv = [])
  /\
  (forall s,
     Startup.env_is (getenv "NODE_ENV") "production" = true ->
     getenv "ALLOWED_ORIGINS" = Some s -> s <> EmptyString ->
     String.concat "," (Startup.cors_origin getenv) = s /\
     Startup.cors_origin getenv <> [] /\
     Forall (fun origin => has_char (Ascii.ascii_of_nat 44) origin = false)
       (Startup.cors_origin getenv)).
Proof.
  unfold Startup.cors_origin. split; [|split].
  - intros ->. reflexivity.
  - intros -> Hp. destruct (getenv "ALLOWED_ORIGINS"); [|reflexivity].
    rewrite Hp. reflexivity.
  - intros s -> -> Hs.
    assert (Hp : Startup.present (Some s) = true).
    { cbn. destruct (String.eqb_spec s EmptyString); [contradiction|reflexivity]. }
    rewrite Hp. unfold Startup.split_commas. split; [|split].
    + apply (split_on_joins (Ascii.ascii_of_nat 44) s).
    + destruct (split_on_cons (Ascii.ascii_of_nat 44) s) as (h & t & ->). discriminate.
    + apply split_on_fields.
Qed.

End StartupProperties.

(** ** Properties of the prescription handlers *)

Section PrescriptionProperties.

Import Prescriptions.

Variable js_text : value -> string.

Local Abbreviation write := (Prescriptions.write_prescription js_text).
Local Abbreviation handle := (Prescriptions.prescriptions js_text).
Local Abbreviation line := (Prescriptions.medicine_line js_text).

Lemma prop_defined (v : value) (key : string) :
  nullish v = false -> Prescriptions.prop v key = Prescriptions.ret (get_opt v key).
Proof. destruct v; cbn; intros H; try discriminate; reflexivity. Qed.

Lemma prop_nullish (v : value) (key : string) (t : list action) :
  nullish v = true -> exists m, Prescriptions.prop v key t = (inr (TypeError m), t).
Proof. destruct v; cbn; intros H; try discriminate; eexists; reflexivity. Qed.

(** [forEach] draws one line per item, in order, numbered on from [i]. *)
Lemma forEach_draws (items : list value) (i : nat) (t : list action) :
  Prescriptions.forEach items i (fun med k => draw (Text (line med k) Plain)) t =
  (inl tt, t ++ medicine_lines js_text i items).
Proof.
  revert i t. induction items as [|x items IH]; intros i t.
  - cbn. rewrite app_nil_r. reflexivity.
  - cbn [Prescriptions.forEach]. unfold Prescriptions.bind at 1.
    cbv [draw act]. rewrite IH. unfold medicine_lines. cbn [length seq combine map fst snd].
    rewrite <- app_assoc. reflexivity.
Qed.

Lemma forEach_draws_on (items : list value) (i : nat) (t : list action) :
  Prescriptions.forEach items i
    (fun med k t0 => (inl tt, t0 ++ [Draw (Text (line med k) Plain)])) t =
  (inl tt, t ++ medicine_lines js_text i items).
Proof. exact (forEach_draws items i t). Qed.

(** The document of a request that passes the check and whose medicines
    can be listed, call by call. *)
Lemma write_prescription_run (req : request) (s : surroundings) (items : list value) :
  let appointment_id := get_opt (body req) "appointment_id" in
  let doctor := js_or (get_opt (body req) "doctor_name") (VStr "Dr. Unknown") in
  let patient := js_or (get_opt (body req) "patient_name") (VStr "Unknown Patient") in
  let diagnosis := get_opt (body req) "diagnosis" in
  let instructions := get_opt (body req) "instructions" in
  let filename := ("prescription-" ++ js_text appointment_id ++ ".pdf")%string in
  truthy appointment_id = true ->
  js_or (get_opt (body req) "medicines") (VArr []) = VArr items ->
  write req s [] =
    (inl filename,
     (if directory_exists s then [] else [MakeDirectory]) ++
     [CreateWriteStream ("prescriptions/" ++ filename)%string;
      Draw (FontSize 20); Draw (Text (VStr "MEDICAL PRESCRIPTION") AlignCenter);
      Draw (MoveDown 2); Draw (FontSize 12);
      Draw (Text (VStr ("Doctor: " ++ js_text doctor)%string) Continued);
      Draw (Text (VStr ("Date: " ++ today s)%string) AlignRight);
      Draw (Text (VStr ("Patient: " ++ js_text patient)%string) Plain);
      Draw (MoveDown 2)] ++
     (if truthy diagnosis
      then [Draw (Text (VStr ("Diagnosis: " ++ js_text diagnosis)%string) Plain);
            Draw (MoveDown 2)]
      else []) ++
     [Draw (Text (VStr "Prescribed Medications:") Underline); Draw (MoveDown 1)] ++
     medicine_lines js_text 0 items ++
     [Draw (MoveDown 2)] ++
     (if truthy instructions
      then [Draw (Text (VStr "Additional Instructions:") Underline); Draw (MoveDown 1);
            Draw (Text instructions Plain)]
      else []) ++
     [Draw (MoveDown 4);
      Draw (Text (VStr "Signature: _________________________") AlignRight);
      Draw (Text doctor AlignRight); Draw EndDocument]).
Proof.
  intros appointment_id doctor patient diagnosis instructions filename Hid Hmeds.
  pose proof (valid_body_readable _ _ Hid) as Hb.
  subst appointment_id doctor patient diagnosis instructions filename.
  unfold Prescriptions.write_prescription.
  rewrite !(prop_defined _ _ Hb).
  cbv [Prescriptions.bind Prescriptions.ret draw act].
  rewrite Hid, Hmeds. cbn [negb].
  unfold Prescriptions.forEach_of.
  destruct (directory_exists s); cbn [negb app];
    destruct (truthy (get_opt (body req) "diagnosis")); cbn [app];
    rewrite forEach_draws_on;
    destruct (truthy (get_opt (body req) "instructions")); cbn [app];
    rewrite <- ?app_assoc; reflexivity.
Qed.

Lemma medicine_lines_nth (items : list value) (i k : nat) (med : value) :
  nth_error items k = Some med ->
  nth_error (medicine_lines js_text i items) k =
    Some (Draw (Text (line med (i + k)) Plain)).
Proof.
  revert i k. induction items as [|x items IH]; intros i k H.
  - destruct k; discriminate.
  - destruct k as [|k]; cbn in H |- *.
    + injection H as ->. rewrite Nat.add_0_r. reflexivity.
    + unfold medicine_lines in IH. rewrite (IH (S i) k H).
      rewrite Nat.add_succ_r. reflexivity.
Qed.

Lemma medicine_lines_length (items : list value) (i : nat) :
  length (medicine_lines js_text i items) = length items.
Proof.
  unfold medicine_lines. rewrite length_map, length_combine, length_seq.
  apply Nat.min_id.
Qed.

Lemma regroup_around (a b c h l : list action) (m : action) (d e : list action) :
  a ++ b ++ c ++ h ++ l ++ [m] ++ d ++ e = (a ++ b ++ c) ++ h ++ l ++ m :: (d ++ e).
Proof. rewrite <- !app_assoc. reflexivity. Qed.

(** X20. A prescription request whose [appointment_id] is missing or falsy
    is answered 400 before anything is written: no directory is made, no
    file is opened and nothing is drawn. *)
Theorem prescription_requires_appointment_id (req : request) (s : surroundings) :
  nullish (body req) = false ->
  truthy (get_opt (body req) "appointment_id") = false ->
  handle req s =
    (Answered 400 (Failed (AppError "appointment_id is required" 400)), []).
Proof.
  intros Hb Hid. unfold Prescriptions.prescriptions, Prescriptions.write_prescription.
  rewrite !(prop_defined _ _ Hb).
  cbv [Prescriptions.bind Prescriptions.ret]. rewrite Hid. reflexivity.
Qed.





End PrescriptionProperties.

(** ** Further concrete runs *)

Section MoreRuns.

Local Abbreviation webhook :=
  (Main.paystack_webhook Sample.hmac Sample.stringify Sample.secret).
Local Abbreviation open_webhook :=
  (Main.paystack_webhook Sample.hmac Sample.stringify None).
Local Abbreviation verify :=
  (Main.verifyPaystackSignature Sample.hmac Sample.stringify Sample.secret).
Local Abbreviation init := (Main.paystack_init Sample.times_100 Sample.text).
Local Abbreviation success := (Sample.event "charge.success" "ps_ref_X" (VStr "A1")).
Local Abbreviation failure := (Sample.event "charge.failed" "ps_ref_X" (VStr "A1")).
Local Abbreviation elsewhere := (Sample.event "charge.success" "ps_ref_Y" (VStr "A2")).
Local Abbreviation unknown := (Sample.event "charge.success" "ps_ref_Z" VNull).
Local Abbreviation pending := (Sample.store Sample.initiated_row).
Local Abbreviation gateway_down :=
  (Sample.with_gateway (FetchRejects "ECONNREFUSED") Sample.healthy).
Local Abbreviation payments_error :=
  (Sample.with_update_payments (ReturnsError "timeout") Sample.healthy).

Lemma unsigned_deliveries_accepted_witness :
  open_webhook {| body := success; headers := [] |} Sample.healthy pending =
  open_webhook (Sample.forged success) Sample.healthy pending /\
  forall resp w',
    open_webhook {| body := success; headers := [] |} Sample.healthy pending
    = (Ok resp, w') ->
    status_code resp <> 401%Z.
Proof.
  apply (unsigned_deliveries_accepted Sample.hmac Sample.stringify None success []
           [("x-paystack-signature", "deadbeef")] Sample.healthy pending).
  reflexivity.
Defined.

Lemma charge_success_settles_witness :
  exists w',
    webhook (Sample.signed success) Sample.healthy Sample.two_payments
    = (Ok acknowledged, w') /\
    payments w' = map (update_payment "paid" (VStr "ps_ref_X"))
                    (payments Sample.two_payments) /\
    appointments w' = map (update_appointment "confirmed" (VStr "A1"))
                        (appointments Sample.two_payments) /\
    (forall p, In p (payments Sample.two_payments) -> pay_ref p = "ps_ref_X" ->
               In (set_status "paid" p) (payments w')) /\
    (forall x, In x (appointments Sample.two_payments) -> appt_id x = "A1" ->
               In {| appt_id := "A1"; appt_status := "confirmed" |} (appointments w')).
Proof.
  apply (charge_success_settles Sample.hmac Sample.stringify Sample.secret
           (Sample.signed success) Sample.healthy Sample.two_payments "ps_ref_X" "A1");
    try reflexivity.
  discriminate.
Defined.

Lemma unknown_reference_unnoticed_witness :
  exists resp w' added,
    webhook (Sample.signed unknown) Sample.healthy pending = (Ok resp, w') /\
    payments w' = payments pending /\
    trace w' = trace pending ++ added /\
    (Succeeds = Succeeds -> Succeeds = Succeeds ->
     resp = acknowledged /\ Forall (fun e => is_complaint e = false) added).
Proof.
  apply (unknown_reference_unnoticed Sample.hmac Sample.stringify Sample.secret
           (Sample.signed unknown) Sample.healthy pending pending "ps_ref_Z");
    try reflexivity.
  - left. reflexivity.
  - intros p [<-|[]]. discriminate.
Defined.

Lemma unreadable_event_fails_early_witness :
  exists w',
    webhook (Sample.signed (Sample.bare_event "charge.success")) Sample.healthy pending
    = (Ok processing_failed, w') /\
    payments w' = payments pending /\ appointments w' = appointments pending /\
    store_calls (trace w') = store_calls (trace pending).
Proof.
  apply (unreadable_event_fails_early Sample.hmac Sample.stringify Sample.secret
           (Sample.signed (Sample.bare_event "charge.success")) Sample.healthy
           pending pending);
    try reflexivity.
  left. reflexivity.
Defined.

Lemma last_event_wins_witness :
  exists resp1 first resp2 second,
    webhook (Sample.signed success) payments_error pending = (Ok resp1, first) /\
    webhook (Sample.signed failure) Sample.healthy first = (Ok resp2, second) /\
    payments second =
      map (update_payment "failed" (VStr "ps_ref_X")) (payments pending).
Proof.
  apply (last_event_wins Sample.hmac Sample.stringify Sample.secret
           (Sample.signed success) (Sample.signed failure) payments_error
           Sample.healthy pending "failed");
    try reflexivity.
  - left. reflexivity.
  - right. split; reflexivity.
Defined.

Lemma different_references_commute_witness :
  exists respA wA respAB wAB respB wB respBA wBA,
    webhook (Sample.signed failure) Sample.healthy Sample.two_payments = (Ok respA, wA) /\
    webhook (Sample.signed elsewhere) Sample.healthy wA = (Ok respAB, wAB) /\
    webhook (Sample.signed elsewhere) Sample.healthy Sample.two_payments
    = (Ok respB, wB) /\
    webhook (Sample.signed failure) Sample.healthy wB = (Ok respBA, wBA) /\
    payments wAB = payments wBA.
Proof.
  apply (different_references_commute Sample.hmac Sample.stringify Sample.secret
           (Sample.signed failure) (Sample.signed elsewhere) Sample.healthy
           Sample.two_payments "ps_ref_X" "ps_ref_Y");
    try reflexivity.
  - discriminate.
  - right. reflexivity.
  - left. reflexivity.
Defined.

Lemma updatePaymentStatus_outcomes_witness :
  exists r w',
    Main.updatePaymentStatus (VStr "ps_ref_X") "paid" (VStr "A1") payments_error pending
    = (r, w') /\
    (r = Ok true \/ exists m, r = Throw (DatabaseError m)) /\
    payments w' = payments pending /\
    returned r = false /\ payments w' = payments pending /\
    appointments w' = appointments pending.
Proof.
  destruct (updatePaymentStatus_outcomes (VStr "ps_ref_X") "paid" (VStr "A1")
              payments_error pending) as (r & w' & Hrun & Hr & Hp & Hfail).
  exists r, w'. split; [exact Hrun|]. split; [exact Hr|]. split; [exact Hp|].
  apply Hfail. discriminate.
Defined.

Lemma init_rejects_invalid_request_witness :
  exists w' added,
    init {| body := VObj [("appointment_id", VStr "A1"); ("amount_ngn", VNum 0)];
            headers := [] |} Sample.healthy pending =
      (Ok {| status_code := 400;
             sent := ErrorReport
               (PaymentError "appointment_id and amount_ngn are required") |}, w') /\
    payments w' = payments pending /\ appointments w' = appointments pending /\
    trace w' = trace pending ++ added /\
    Forall (fun e => is_store_call e = false /\ is_gateway_call e = false) added.
Proof.
  apply (init_rejects_invalid_request Sample.times_100 Sample.text); [reflexivity|].
  right. reflexivity.
Defined.

Lemma init_always_answers_witness :
  exists resp w',
    init Sample.init_request Sample.healthy pending = (Ok resp, w') /\
    appointments w' = appointments pending /\
    status_code resp = 200%Z /\
    payments w' =
      payments pending ++
      [initiated_row pending (VStr "A1") (VNum 5000) "ps_ref_0000"].
Proof.
  destruct (init_always_answers Sample.times_100 Sample.text Sample.init_request
              Sample.healthy pending) as (resp & w' & Hrun & Ha & _ & H200).
  exists resp, w'. split; [exact Hrun|]. split; [exact Ha|].
  assert (Hs : status_code resp = 200%Z).
  { cbv in Hrun. injection Hrun as <- _. reflexivity. }
  split; [exact Hs|]. apply (H200 Hs).
Defined.

Lemma init_opens_checkout_witness :
  init Sample.init_request Sample.healthy pending =
    (Ok {| status_code := 200;
           sent := Json (VObj [("authorization_url", VStr "https://checkout");
                               ("access_code", VStr "ac");
                               ("reference", VStr "ps_ref_0000")]) |},
     after pending
       (payments pending ++ [initiated_row pending (VStr "A1") (VNum 5000) "ps_ref_0000"])
       (appointments pending)
       [PaymentsInsert (VStr "A1") (VNum 5000) "paystack" "initiated" "ps_ref_0000"
          Succeeds;
        GatewayInitialize (VNum 500000) (VStr "customer@example.com") "ps_ref_0000"
          (VStr "A1") (Replies Sample.accepted)]).
Proof.
  apply (init_opens_checkout Sample.times_100 Sample.text Sample.init_request
           Sample.healthy pending Sample.accepted);
    reflexivity.
Defined.

Lemma init_unreachable_gateway_leaves_initiated_witness :
  exists e w' rest,
    instanceof_AppError e = false /\
    init Sample.init_request gateway_down pending =
      (Ok {| status_code := 500; sent := ErrorReport e |}, w') /\
    payments w' =
      payments pending ++ [initiated_row pending (VStr "A1") (VNum 5000) "ps_ref_0000"] /\
    appointments w' = appointments pending /\
    trace w' =
      trace pending ++
      PaymentsInsert (VStr "A1") (VNum 5000) "paystack" "initiated" "ps_ref_0000"
        Succeeds ::
      GatewayInitialize (VNum 500000) (VStr "customer@example.com") "ps_ref_0000"
        (VStr "A1") (FetchRejects "ECONNREFUSED") :: rest /\
    Forall (fun x => is_store_call x = false /\ is_gateway_call x = false) rest.
Proof.
  apply (init_unreachable_gateway_leaves_initiated Sample.times_100 Sample.text
           Sample.init_request gateway_down pending);
    try reflexivity.
  left. eexists. reflexivity.
Defined.

Lemma initiated_payment_gets_paid_witness :
  let row := initiated_row Sample.empty_store (VStr "A1") (VNum 5000) "ps_ref_0000" in
  exists resp w1 resp' w2,
    init Sample.init_request Sample.healthy Sample.empty_store = (Ok resp, w1) /\
    status_code resp = 200%Z /\
    In row (payments w1) /\
    webhook (Sample.signed (Sample.event "charge.success" "ps_ref_0000" (VStr "A1")))
      Sample.healthy w1 = (Ok resp', w2) /\
    In (set_status "paid" row) (payments w2).
Proof.
  apply (initiated_payment_gets_paid Sample.hmac Sample.stringify Sample.times_100
           Sample.text Sample.secret Sample.init_request Sample.healthy
           Sample.empty_store Sample.accepted
           (Sample.signed (Sample.event "charge.success" "ps_ref_0000" (VStr "A1")))
           Sample.healthy);
    reflexivity.
Defined.

Lemma alt_init_rejects_invalid_request_witness :
  Alt.paystack_init Sample.times_100
    {| body := VObj [("amount_ngn", VNum 5000)]; headers := [] |} Sample.healthy pending =
    (Ok {| status_code := 400;
           sent := Json (VObj [("error",
                                VStr "appointment_id and amount_ngn required")]) |},
     pending).
Proof.
  apply (alt_init_rejects_invalid_request Sample.times_100); [reflexivity|].
  left. reflexivity.
Defined.

Lemma alt_init_unreadable_body_escapes_witness :
  exists m,
    Alt.paystack_init Sample.times_100 {| body := VUndefined; headers := [] |}
      Sample.healthy pending = (Throw (TypeError m), pending).
Proof.
  apply (alt_init_unreadable_body_escapes Sample.times_100). reflexivity.
Defined.

Lemma alt_appointment_confirmed_without_payment_witness :
  exists w',
    Alt.paystack_webhook {| body := success; headers := [] |} payments_error pending
    = (Ok acknowledged, w') /\
    payments w' = payments pending /\
    appointments w' = [{| appt_id := "A1"; appt_status := "confirmed" |}] /\
    store_calls (trace w') =
      [PaymentsUpdate "paid" (VStr "ps_ref_X") (ReturnsError "timeout");
       AppointmentsUpdate "confirmed" (VStr "A1") Succeeds].
Proof.
  apply (alt_appointment_confirmed_without_payment
           {| body := success; headers := [] |} payments_error pending "timeout");
    try reflexivity.
  left. reflexivity.
Defined.

Lemma alt_other_events_ignored_witness :
  Alt.paystack_webhook {| body := failure; headers := [] |} Sample.healthy pending =
    (Ok acknowledged,
     after pending (payments pending) (appointments pending)
       [ConsoleLog "Paystack webhook received"]).
Proof.
  apply (alt_other_events_ignored {| body := failure; headers := [] |}
           Sample.healthy pending);
    reflexivity.
Defined.

Lemma alt_data_status_triggers_paid_witness :
  let refund :=
    VObj [("event", VStr "refund.processed");
          ("data", VObj [("status", VStr "success"); ("reference", VStr "ps_ref_X")])] in
  exists w' rest,
    Alt.paystack_webhook {| body := refund; headers := [] |} Sample.healthy pending
    = (Ok acknowledged, w') /\
    store_calls (trace w') = PaymentsUpdate "paid" (VStr "ps_ref_X") Succeeds :: rest /\
    payments w' = [set_status "paid" Sample.initiated_row].
Proof.
  intros refund.
  apply (alt_data_status_triggers_paid {| body := refund; headers := [] |}
           Sample.healthy pending).
  reflexivity.
Defined.


Lemma validate_required_variables_witness :
  Startup.validate Sample.production Startup.requiredEnvVars =
    Startup.Exits 1 "ERROR: Missing required environment variable: PAYSTACK_SECRET" /\
  (1 = 1)%Z /\
  exists before v rest,
    Startup.requiredEnvVars = before ++ v :: rest /\
    Forall (fun u => Startup.present (Sample.production u) = true) before /\
    Startup.present (Sample.production v) = false /\
    "ERROR: Missing required environment variable: PAYSTACK_SECRET" =
      ("ERROR: Missing required environment variable: " ++ v)%string.
Proof.
  split; [reflexivity|].
  destruct (validate_required_variables Sample.production Startup.requiredEnvVars)
    as (_ & H & _).
  apply (H 1%Z "ERROR: Missing required environment variable: PAYSTACK_SECRET").
  reflexivity.
Defined.

Lemma cors_origin_fields_witness :
  Startup.cors_origin Sample.production = ["https://a.example"; " https://b.example"] /\
  String.concat "," (Startup.cors_origin Sample.production) =
    "https://a.example, https://b.example" /\
  Startup.cors_origin Sample.production <> [] /\
  Forall (fun origin => has_char (Ascii.ascii_of_nat 44) origin = false)
    (Startup.cors_origin Sample.production).
Proof.
  split; [reflexivity|].
  destruct (cors_origin_fields Sample.production) as (_ & _ & H).
  apply (H "https://a.example, https://b.example"); [reflexivity|reflexivity|discriminate].
Defined.

Lemma prescription_requires_appointment_id_witness :
  Prescriptions.prescriptions Sample.label
    {| body := VObj [("doctor_name", VStr "Dr. Ada")]; headers := [] |} Sample.desk =
    (Prescriptions.Answered 400
       (Prescriptions.Failed (Prescriptions.AppError "appointment_id is required" 400)),
     []).
Proof.
  apply (prescription_requires_appointment_id Sample.label); reflexivity.
Defined.





End MoreRuns.
